(** * vite-plugin-tailwind-purgecss: the selector discovery and purge pipeline

    A shallow embedding of [src/index.ts].  The plugin keeps four cells per
    instance ([viteConfig], [selectors], [standard], [moduleIds]) and exposes
    three hooks ([load], [configResolved], [generateBundle]).  The hooks are
    written here as functions that pass the instance state explicitly; code
    that can throw returns a [Result].

    The collaborators the module imports (the purge engine, [css-what]'s
    [parse], [path.join], the default extractor) and what it takes from the
    runtime (the [RegExp] constructor, [String.prototype.trim]) are fields
    of the class [Externals]; the plugin context [this] of a hook is the
    record [PluginContext]. *)

From Stdlib Require Import List String Ascii Bool Arith Lia.
Import ListNotations.
Local Open Scope string_scope.
Local Open Scope list_scope.

(** ** JavaScript values the plugin works with *)

Module Js.

(** A thrown value: the name of the error class and its message. *)
Inductive Exn : Type :=
| Error (name message : string).

(** A computation that returns normally or throws. *)
Inductive Result (A : Type) : Type :=
| Ok (a : A)
| Throw (e : Exn).
Arguments Ok {A} a.
Arguments Throw {A} e.

Definition bind {A B} (r : Result A) (k : A -> Result B) : Result B :=
  match r with
  | Ok a => k a
  | Throw e => Throw e
  end.

(** [try { body } catch (e) { handler }] *)
Definition try_catch {A} (body : Result A) (handler : Exn -> Result A) : Result A :=
  match body with
  | Ok a => Ok a
  | Throw e => handler e
  end.

Definition returns {A} (r : Result A) : bool :=
  match r with
  | Ok _ => true
  | Throw _ => false
  end.

(** [for (const x of xs) { st = body(st, x) }] where the body may throw. *)
Fixpoint for_of {S X} (body : S -> X -> Result S) (xs : list X) (st : S) : Result S :=
  match xs with
  | [] => Ok st
  | x :: xs' => bind (body st x) (for_of body xs')
  end.

(** [Set<string>]: members in insertion order, each once. *)
Definition StringSet := list string.

Definition has (x : string) (s : StringSet) : bool :=
  existsb (String.eqb x) s.

Definition add (x : string) (s : StringSet) : StringSet :=
  if has x s then s else s ++ [x].

(** [xs.forEach((x) => s.add(x))] *)
Definition add_each (xs : list string) (s : StringSet) : StringSet :=
  fold_left (fun acc x => add x acc) xs s.

(** An object used as a record from string keys to values; the list is
    the order in which [Object.entries] enumerates it. *)
Definition Obj (V : Type) := list (string * V).

Definition keys {V} (o : Obj V) : list string := map fst o.

(** [o[k] = v]: an existing key keeps its place, a new key goes last. *)
Fixpoint set {V} (k : string) (v : V) (o : Obj V) : Obj V :=
  match o with
  | [] => [(k, v)]
  | (k', v') :: o' => if String.eqb k k' then (k, v) :: o' else (k', v') :: set k v o'
  end.

(** [delete o[k]] *)
Definition delete {V} (k : string) (o : Obj V) : Obj V :=
  filter (fun kv => negb (String.eqb k (fst kv))) o.

End Js.
Import Js.

Notation "x <- r ;; k" := (Js.bind r (fun x => k))
  (at level 61, r at next level, right associativity).

(** ** Types of the purge engine ([purgecss]) *)

(** An element of a [StringRegExpArray]: a string, or a regular expression
    given by its source text. *)
Inductive StringRegExp : Type :=
| Str (s : string)
| Re (source : string).

Definition StringRegExpArray := list StringRegExp.

Record ComplexSafelist : Type := {
  sl_standard : option StringRegExpArray;
  sl_deep : option (list string);
  sl_greedy : option StringRegExpArray;
  sl_variables : option StringRegExpArray;
  sl_keyframes : option StringRegExpArray
}.

Record RawCSS : Type := { raw : string; name : string }.

Inductive ContentEntry : Type :=
| Glob (pattern : string)
| RawContent (extension rawText : string).

Definition Extractor := string -> list string.

(** The options object of the engine.  Every field is optional in
    [Partial<UserDefinedOptions>]; the plugin's [PurgeOptions] is the same
    object type without [css], a restriction that exists only at type level. *)
Record Options : Type := {
  content : option (list ContentEntry);
  css : option (list RawCSS);
  defaultExtractor : option Extractor;
  fontFace : option bool;
  keyframes : option bool;
  variables : option bool;
  output : option string;
  rejected : option bool;
  rejectedCss : option bool;
  safelist : option ComplexSafelist;
  blocklist : option StringRegExpArray;
  skippedContentGlobs : option (list string);
  dynamicAttributes : option (list string)
}.

Definition PurgeOptions := Options.

Record ResultPurge : Type := {
  rp_css : string;
  rp_rejectedCss : option string;
  rp_rejected : option (list string);
  rp_file : option string
}.

(** ** Types of the host build pipeline (Vite and Rollup) *)

Record ResolvedConfig : Type := { root : string }.

Record ModuleInfo : Type := {
  isIncluded : option bool;
  code : option string
}.

(** An asset holds text or bytes ([string | Uint8Array]). *)
Inductive Source : Type :=
| Text (s : string)
| Bytes (b : list ascii).

Record Asset : Type := {
  fileName : string;
  assetName : option string;
  needsCodeReference : bool;
  source : Source
}.

Record Chunk : Type := {
  chunkFileName : string;
  chunkCode : string
}.

Inductive ChunkOrAsset : Type :=
| IsAsset (a : Asset)
| IsChunk (c : Chunk).

Definition OutputBundle := Obj ChunkOrAsset.

(** The program tree [this.parse] returns.  The three node types the plugin
    reads are leaves of an ESTree; every other node type is [Other], with
    its child nodes in the order the walker visits them. *)
Inductive LiteralValue : Type :=
| VString (s : string)
| VBoolean (b : bool)
| VNumber (n : nat)
| VNull
| VRegExp (pattern flags : string).

#[warnings="-register-all"]
Inductive Node : Type :=
| Literal (value : LiteralValue)
| Identifier (name : string)
| TemplateElement (cooked : option string) (raw : string)
| Other (type : string) (children : list Node).

Record PluginContext : Type := {
  getModuleInfo : string -> option ModuleInfo;
  parse : string -> Result Node
}.

(** ** What the module imports *)

Class Externals : Type := {
  (** [new PurgeCSS().purge(options)], awaited *)
  purge : Options -> Result (list ResultPurge);
  (** [defaultExtractor()] of [./extractors/default-extractor] *)
  default_extractor : Extractor;
  (** [join] of [path] *)
  join : string -> string -> string;
  (** [parse] of [css-what]; the selector tree it returns is not used *)
  css_what_parse : string -> Result unit;
  (** [new RegExp(source)]; the object it returns is not used *)
  RegExp_new : string -> Result unit;
  (** [String.prototype.trim] of the runtime *)
  trim : string -> string
}.

(** [walk(ast, { enter })] of [estree-walker]: [enter] is called on a node
    before its children, and every node of the tree is visited.  The state
    [S] stands for what the callback mutates. *)
Fixpoint walk {S} (enter : Node -> S -> S) (node : Node) (st : S) : S :=
  let st := enter node st in
  match node with
  | Other _ children => fold_left (fun acc child => walk enter child acc) children st
  | _ => st
  end.

(** The nodes of a tree in the order [walk] enters them. *)
Fixpoint nodes_of (node : Node) : list Node :=
  node ::
  match node with
  | Other _ children => flat_map nodes_of children
  | _ => []
  end.

(** ** The plugin *)

(** [o?.f] and [o ?? d] *)
Definition chain {A B} (o : option A) (f : A -> option B) : option B :=
  match o with
  | Some a => f a
  | None => None
  end.

Definition nullish {A} (o : option A) (d : A) : A :=
  match o with
  | Some a => a
  | None => d
  end.

(** [EXT_CSS.test(s)] for [EXT_CSS = /\.(css)$/]: some suffix of [s] is
    [.css]. *)
Fixpoint EXT_CSS_test (s : string) : bool :=
  String.eqb s ".css" ||
  match s with
  | EmptyString => false
  | String _ s' => EXT_CSS_test s'
  end.

(** The cells a plugin instance closes over. *)
Record Plugin : Type := {
  viteConfig : option ResolvedConfig;
  selectors : StringSet;
  standard : StringRegExpArray;
  moduleIds : StringSet
}.

(** What a [generateBundle] call leaves with the host: the bundle object it
    was handed, the files given to [this.emitFile], and the option objects
    given to the purge engine, both in call order. *)
Record Output : Type := {
  bundle : OutputBundle;
  emitted : list Asset;
  calls : list Options
}.

(** The first six elements of the [standard] array literal. *)
Definition baseline : StringRegExpArray :=
  [ Str "*"; Str "html"; Str "body"; Re "aria-current"; Re "svelte-"; Re "^\:[-a-z]+$" ].

(** [{...o}] for an optional options object and for an optional safelist *)
Definition spread_options (o : option PurgeOptions) : Options :=
  nullish o
    {| content := None; css := None; defaultExtractor := None; fontFace := None;
       keyframes := None; variables := None; output := None; rejected := None;
       rejectedCss := None; safelist := None; blocklist := None;
       skippedContentGlobs := None; dynamicAttributes := None |}.

Definition spread_safelist (o : option ComplexSafelist) : ComplexSafelist :=
  nullish o
    {| sl_standard := None; sl_deep := None; sl_greedy := None;
       sl_variables := None; sl_keyframes := None |}.

Section PurgeCss.

Context {ext : Externals}.

(** The argument of [purgeCss]. *)
Variable purgeOptions : option PurgeOptions.

(** [purgeOptions?.safelist?.standard ?? []] and its [greedy] and
    [content] analogues *)
Definition user_standard : StringRegExpArray :=
  nullish (chain (chain purgeOptions safelist) sl_standard) [].

Definition user_greedy : StringRegExpArray :=
  nullish (chain (chain purgeOptions safelist) sl_greedy) [].

Definition user_content : list ContentEntry :=
  nullish (chain purgeOptions content) [].

Definition extractor : Extractor :=
  nullish (chain purgeOptions defaultExtractor) default_extractor.

(** The state of a fresh instance: [purgeCss(purgeOptions)]. *)
Definition purgeCss : Plugin :=
  {| viteConfig := None;
     selectors := [];
     standard := baseline ++ user_standard;
     moduleIds := [] |}.

Definition load (p : Plugin) (id : string) : Plugin :=
  if EXT_CSS_test id then p
  else {| viteConfig := viteConfig p;
          selectors := selectors p;
          standard := standard p;
          moduleIds := add id (moduleIds p) |}.

Definition configResolved (p : Plugin) (config : ResolvedConfig) : Plugin :=
  {| viteConfig := Some config;
     selectors := selectors p;
     standard := standard p;
     moduleIds := moduleIds p |}.

(** The [enter] callback: three tests in sequence, each adding the
    extractor's tokens to [selectors]. *)
Definition enter (node : Node) (selectors : StringSet) : StringSet :=
  let selectors :=
    match node with
    | Literal (VString value) => add_each (extractor value) selectors
    | _ => selectors
    end in
  let selectors :=
    match node with
    | Identifier name => add_each (extractor name) selectors
    | _ => selectors
    end in
  let selectors :=
    match node with
    | TemplateElement cooked raw => add_each (extractor (nullish cooked raw)) selectors
    | _ => selectors
    end in
  selectors.

(** The body of the loop over [moduleIds]. *)
Definition scan_module (this : PluginContext) (selectors : StringSet) (id : string)
  : Result StringSet :=
  match getModuleInfo this id with
  | Some {| isIncluded := Some true; code := Some text |} =>
      ast <- parse this text ;;
      Ok (walk enter ast selectors)
  | _ => Ok selectors
  end.

(** The loop over [Object.entries(bundle)] that fills [assets]. *)
Definition collect_assets (bundle : OutputBundle) : Obj Asset :=
  fold_left
    (fun assets entry =>
       match entry with
       | (fileName, IsAsset a) =>
           if EXT_CSS_test fileName then Js.set fileName a assets else assets
       | (_, IsChunk _) => assets
       end)
    bundle [].

(** The body of the loop over [selectors]: the [try] block and its empty
    [catch]. *)
Definition validate_selector (standard : StringRegExpArray) (selector : string)
  : Result StringRegExpArray :=
  try_catch
    (_ <- css_what_parse selector ;;
     _ <- RegExp_new selector ;;
     Ok (standard ++ [Str selector]))
    (fun _ => Ok standard).

(** The option object of one engine call. *)
Definition purge_options (rootDir : string) (standard : StringRegExpArray)
    (fileName : string) (text : string) : Options :=
  let o := spread_options purgeOptions in
  let s := spread_safelist (chain purgeOptions safelist) in
  {| content := Some (Glob (join rootDir "**/*.html") :: user_content);
     css := Some [ {| raw := trim text; name := fileName |} ];
     defaultExtractor := defaultExtractor o;
     fontFace := fontFace o;
     keyframes := keyframes o;
     variables := variables o;
     output := output o;
     rejected := Some true;
     rejectedCss := Some true;
     safelist :=
       Some {| sl_standard := Some standard;
               sl_deep := sl_deep s;
               sl_greedy := Some (Re "svelte-" :: user_greedy);
               sl_variables := sl_variables s;
               sl_keyframes := sl_keyframes s |};
     blocklist := blocklist o;
     skippedContentGlobs := skippedContentGlobs o;
     dynamicAttributes := dynamicAttributes o |}.

(** The body of the loop over [Object.entries(assets)]; [key] is the
    loop's [fileName], the key of the entry.  Reading [root]
    of an unset [viteConfig] and calling [trim] on a byte array are type
    errors of the runtime. *)
Definition purge_asset (viteConfig : option ResolvedConfig)
    (standard : StringRegExpArray) (out : Output) (entry : string * Asset)
  : Result Output :=
  let (key, asset) := entry in
  rootDir <- match viteConfig with
             | Some config => Ok (root config)
             | None => Throw (Error "TypeError" "viteConfig is undefined")
             end ;;
  text <- match source asset with
          | Text s => Ok s
          | Bytes _ => Throw (Error "TypeError" "asset.source.trim is not a function")
          end ;;
  let options := purge_options rootDir standard key text in
  purgeCSSResult <- purge options ;;
  match purgeCSSResult with
  | first :: _ =>
      Ok {| bundle := Js.delete (fileName asset) (bundle out);
            emitted := emitted out ++
              [ {| fileName := fileName asset;
                   assetName := assetName asset;
                   needsCodeReference := needsCodeReference asset;
                   source := Text (rp_css first) |} ];
            calls := calls out ++ [options] |}
  | [] =>
      Ok {| bundle := bundle out;
            emitted := emitted out;
            calls := calls out ++ [options] |}
  end.

Definition generateBundle (this : PluginContext) (p : Plugin) (bundle : OutputBundle)
  : Result (Plugin * Output) :=
  selectors' <- for_of (scan_module this) (moduleIds p) (selectors p) ;;
  let assets := collect_assets bundle in
  standard' <- for_of validate_selector selectors' (standard p) ;;
  out <- for_of (purge_asset (viteConfig p) standard') assets
           {| bundle := bundle; emitted := []; calls := [] |} ;;
  Ok ({| viteConfig := viteConfig p;
         selectors := selectors';
         standard := standard';
         moduleIds := moduleIds p |}, out).

(** A build session: the hooks the host calls on one instance, in order. *)
Inductive HookCall : Type :=
| Load (id : string)
| ConfigResolved (config : ResolvedConfig)
| GenerateBundle (this : PluginContext) (bundle : OutputBundle).

Fixpoint run (hooks : list HookCall) (p : Plugin) (outs : list Output)
  : Result (Plugin * list Output) :=
  match hooks with
  | [] => Ok (p, outs)
  | Load id :: rest => run rest (load p id) outs
  | ConfigResolved config :: rest => run rest (configResolved p config) outs
  | GenerateBundle this bundle :: rest =>
      r <- generateBundle this p bundle ;;
      run rest (fst r) (outs ++ [snd r])
  end.

End PurgeCss.

Arguments generateBundle {ext} purgeOptions this p bundle.
Arguments run {ext} purgeOptions hooks p outs.

(** ** The same notions, in the words of the specification *)

(** The text a node contributes: "string-literal nodes, their literal value;
    identifier nodes, their name text; template-text segments, the cooked
    value, falling back to the raw text if cooked is unavailable". *)
Definition candidate_text (node : Node) : option string :=
  match node with
  | Literal (VString s) => Some s
  | Literal _ => None
  | Identifier n => Some n
  | TemplateElement (Some c) _ => Some c
  | TemplateElement None r => Some r
  | Other _ _ => None
  end.

(** "A token is admitted only if both hold: it parses under selector grammar
    and it compiles as a pattern matcher." *)
Definition valid_token {ext : Externals} (t : string) : bool :=
  returns (css_what_parse t) && returns (RegExp_new t).

(** A module the scanner reads: tracked, included in the final build, with
    its text available. *)
Definition scanned_text (this : PluginContext) (id : string) : option string :=
  match getModuleInfo this id with
  | Some info =>
      match isIncluded info with
      | Some true => code info
      | _ => None
      end
  | None => None
  end.

(** "Any module whose inclusion status indicates it was dropped or whose
    transformed text is unavailable"; a module the host knows nothing about
    has no inclusion status at all. *)
Definition skipped (this : PluginContext) (id : string) : Prop :=
  match getModuleInfo this id with
  | None => True
  | Some info => isIncluded info <> Some true \/ code info = None
  end.

(** A token some node of the tree yields, and a token some scanned module
    yields. *)
Definition token_of_tree {ext : Externals} (purgeOptions : option PurgeOptions)
    (ast : Node) (tok : string) : Prop :=
  exists node text,
    In node (nodes_of ast) /\ candidate_text node = Some text /\
    In tok (extractor purgeOptions text).

Definition token_of_module {ext : Externals} (purgeOptions : option PurgeOptions)
    (this : PluginContext) (id : string) (tok : string) : Prop :=
  exists text ast,
    scanned_text this id = Some text /\ parse this text = Ok ast /\
    token_of_tree purgeOptions ast tok.

(** The stylesheet assets of a bundle: "CSS assets (matched by extension)". *)
Definition is_css_asset (entry : string * ChunkOrAsset) : bool :=
  match snd entry with
  | IsAsset _ => EXT_CSS_test (fst entry)
  | IsChunk _ => false
  end.

Definition css_assets (bundle : OutputBundle) : Obj Asset :=
  flat_map
    (fun entry =>
       match snd entry with
       | IsAsset a => if EXT_CSS_test (fst entry) then [(fst entry, a)] else []
       | IsChunk _ => []
       end)
    bundle.

(** The shape of the bundle object the host hands over: keys are distinct,
    and an asset is stored under its own file name. *)
Definition host_bundle (bundle : OutputBundle) : Prop :=
  NoDup (keys bundle) /\
  forall k a, In (k, IsAsset a) bundle -> fileName a = k.

(** [{ ...asset, type: 'asset', source: text }] *)
Definition with_source (a : Asset) (text : string) : Asset :=
  {| fileName := fileName a;
     assetName := assetName a;
     needsCodeReference := needsCodeReference a;
     source := Text text |}.

(** The engine call made for an entry of [assets], and whether its result
    has a first element. *)
Definition asset_text (a : Asset) : string :=
  match source a with
  | Text s => s
  | Bytes _ => ""
  end.

Definition call_for {ext : Externals} (purgeOptions : option PurgeOptions)
    (rootDir : string) (std : StringRegExpArray) (entry : string * Asset) : Options :=
  purge_options purgeOptions rootDir std (fst entry) (asset_text (snd entry)).

Definition first_result {ext : Externals} (purgeOptions : option PurgeOptions)
    (rootDir : string) (std : StringRegExpArray) (entry : string * Asset)
  : option ResultPurge :=
  match purge (call_for purgeOptions rootDir std entry) with
  | Ok (first :: _) => Some first
  | _ => None
  end.

Definition is_some {A} (o : option A) : bool :=
  match o with
  | Some _ => true
  | None => false
  end.

(** [replaces entry kv]: the loop iteration for [entry] deletes the bundle
    entry [kv]. *)
Definition replaces {ext : Externals} (purgeOptions : option PurgeOptions)
    (rootDir : string) (std : StringRegExpArray) (entry : string * Asset)
    (kv : string * ChunkOrAsset) : bool :=
  is_some (first_result purgeOptions rootDir std entry) &&
  String.eqb (fileName (snd entry)) (fst kv).

Definition emits {ext : Externals} (purgeOptions : option PurgeOptions)
    (rootDir : string) (std : StringRegExpArray) (entry : string * Asset)
  : list Asset :=
  match first_result purgeOptions rootDir std entry with
  | Some first => [with_source (snd entry) (rp_css first)]
  | None => []
  end.

Definition root_of (cfg : option ResolvedConfig) : string :=
  match cfg with
  | Some config => root config
  | None => ""
  end.

(** The safelist object every engine call of a pass receives, given the
    [standard] array at that time. *)
Definition merged_safelist (purgeOptions : option PurgeOptions)
    (std : StringRegExpArray) : ComplexSafelist :=
  {| sl_standard := Some std;
     sl_deep := chain (chain purgeOptions safelist) sl_deep;
     sl_greedy := Some (Re "svelte-" :: user_greedy purgeOptions);
     sl_variables := chain (chain purgeOptions safelist) sl_variables;
     sl_keyframes := chain (chain purgeOptions safelist) sl_keyframes |}.

(** "Baseline entries first, then user-supplied standard entries, then the
    validated discovered selectors." *)
Definition merged_standard (purgeOptions : option PurgeOptions)
    (discovered : list string) : StringRegExpArray :=
  baseline ++ user_standard purgeOptions ++ map Str discovered.

(** What every state of a session satisfies, and every call made in it. *)
Definition merged {ext : Externals} (purgeOptions : option PurgeOptions)
    (p : Plugin) : Prop :=
  exists discovered,
    standard p = merged_standard purgeOptions discovered /\
    Forall (fun t => In t (selectors p) /\ valid_token t = true) discovered.

Definition calls_merged {ext : Externals} (purgeOptions : option PurgeOptions)
    (outs : list Output) : Prop :=
  forall out o, In out outs -> In o (calls out) ->
  exists discovered,
    safelist o =
      Some (merged_safelist purgeOptions (merged_standard purgeOptions discovered)) /\
    Forall (fun t => valid_token t = true) discovered.

Definition StringRegExp_eq_dec (x y : StringRegExp) : {x = y} + {x <> y}.
Proof. decide equality; apply string_dec. Defined.

(** The output of a pass that touched nothing. *)
Definition no_output : Output :=
  Build_Output [] [] [].

(** ** A small build, used to run the definitions *)

Module Demo.

(** Splits at spaces. *)
Fixpoint words (cur : string) (s : string) : list string :=
  match s with
  | EmptyString => if String.eqb cur "" then [] else [cur]
  | String c s' =>
      if Ascii.eqb c " "
      then (if String.eqb cur "" then words "" s' else cur :: words "" s')
      else words (cur ++ String c "")%string s'
  end.

Definition starts_with (c : ascii) (s : string) : bool :=
  match s with
  | String c' _ => Ascii.eqb c c'
  | EmptyString => false
  end.

(** Strips TAB, LF, VT, FF, CR and SP from both ends. *)
Definition is_space (c : ascii) : bool :=
  let n := nat_of_ascii c in
  (Nat.leb 9 n && Nat.leb n 13) || Nat.eqb n 32.

Fixpoint strip_start (s : string) : string :=
  match s with
  | EmptyString => EmptyString
  | String c s' => if is_space c then strip_start s' else s
  end.

Fixpoint strip_end (s : string) : string :=
  match s with
  | EmptyString => EmptyString
  | String c s' =>
      match strip_end s' with
      | EmptyString => if is_space c then EmptyString else String c EmptyString
      | t => String c t
      end
  end.

(** The engine keeps the text it is given and marks it; it returns nothing
    for a stylesheet named [empty.css].  The selector parser rejects the
    empty string and tokens starting with [(]; the pattern compiler
    rejects tokens starting with [*]; [trim] strips ASCII white space. *)
Definition ext : Externals :=
  {| purge := fun o =>
       match css o with
       | Some (c :: _) =>
           if String.eqb (name c) "empty.css" then Ok []
           else Ok [ {| rp_css := ("/*purged*/" ++ raw c)%string; rp_rejectedCss := None;
                        rp_rejected := None; rp_file := Some (name c) |} ]
       | _ => Ok []
       end;
     default_extractor := words "";
     join := fun a b => (a ++ "/" ++ b)%string;
     css_what_parse := fun s =>
       if String.eqb s "" || starts_with "(" s
       then Throw (Error "Error" "Unmatched selector") else Ok tt;
     RegExp_new := fun s =>
       if starts_with "*" s
       then Throw (Error "SyntaxError" "Nothing to repeat") else Ok tt;
     trim := fun s => strip_end (strip_start s) |}.

Definition app_js : Node :=
  Other "Program"
    [ Other "VariableDeclarator"
        [ Identifier "cls"; Literal (VString "btn btn-primary") ];
      Other "TemplateLiteral"
        [ TemplateElement (Some "item-") "item-"; Identifier "id";
          TemplateElement None "(raw" ];
      Literal (VNumber 3);
      Literal (VString "* html") ].

Definition this : PluginContext :=
  {| getModuleInfo := fun id =>
       if String.eqb id "src/app.js"
       then Some {| isIncluded := Some true; code := Some "app" |}
       else if String.eqb id "src/dead.js"
       then Some {| isIncluded := Some false; code := Some "dead" |}
       else if String.eqb id "src/pending.js"
       then Some {| isIncluded := Some true; code := None |}
       else None;
     parse := fun text =>
       if String.eqb text "app" then Ok app_js
       else if String.eqb text "dead" then Ok (Literal (VString "unused"))
       else Throw (Error "SyntaxError" "Unexpected token") |}.

Definition userOptions : option PurgeOptions :=
  Some {| content := Some [Glob "extra/**/*.svelte"]; css := None;
          defaultExtractor := None; fontFace := Some true; keyframes := None;
          variables := None; output := None; rejected := Some false;
          rejectedCss := None;
          safelist := Some {| sl_standard := Some [Str "((bad"; Re "^keep-"];
                              sl_deep := Some ["deep$"];
                              sl_greedy := Some [Re "modal"];
                              sl_variables := None; sl_keyframes := None |};
          blocklist := None; skippedContentGlobs := None;
          dynamicAttributes := None |}.

Definition style : Asset :=
  {| fileName := "assets/style.css"; assetName := Some "style.css";
     needsCodeReference := false;
     source := Text "  .btn{color:red} .unused{color:blue}
" |}.

Definition empty : Asset :=
  {| fileName := "empty.css"; assetName := None;
     needsCodeReference := false; source := Text "" |}.

Definition logo : Asset :=
  {| fileName := "logo.svg"; assetName := None;
     needsCodeReference := true; source := Bytes ["<"%char] |}.

Definition bundle : OutputBundle :=
  [ ("index.js", IsChunk {| chunkFileName := "index.js"; chunkCode := "x" |});
    ("assets/style.css", IsAsset style);
    ("logo.svg", IsAsset logo);
    ("empty.css", IsAsset empty) ].

Definition session : list HookCall :=
  [ Load "src/app.js"; Load "src/dead.js"; Load "assets/style.css";
    Load "src/pending.js"; Load "src/unknown.js";
    ConfigResolved {| root := "/proj" |} ].

(** The instance after the load and configuration hooks. *)
Definition ready : Plugin :=
  match run (ext := ext) userOptions session (purgeCss userOptions) [] with
  | Ok (p, _) => p
  | Throw _ => purgeCss userOptions
  end.

(** The first pass on [bundle], and a second pass on the same instance. *)
Definition hooks : list HookCall := session ++ [GenerateBundle this bundle].

Definition first_pass : Result (Plugin * Output) :=
  generateBundle (ext := ext) userOptions this ready bundle.

Definition after_first : Plugin :=
  match first_pass with
  | Ok (p, _) => p
  | Throw _ => ready
  end.

Definition out_first : Output :=
  match first_pass with
  | Ok (_, out) => out
  | Throw _ => no_output
  end.

Definition first_call : Options :=
  match calls out_first with
  | o :: _ => o
  | [] => spread_options None
  end.

Definition second_pass : Result (Plugin * Output) :=
  generateBundle (ext := ext) userOptions this after_first bundle.

Definition after_second : Plugin :=
  match second_pass with
  | Ok (p, _) => p
  | Throw _ => after_first
  end.

Definition out_second : Output :=
  match second_pass with
  | Ok (_, out) => out
  | Throw _ => out_first
  end.

End Demo.

(** ** Further notions used by the properties of the hooks *)

(** The names of the stylesheets an option object carries in [css]. *)
Definition css_names (o : Options) : list string :=
  map name (nullish (css o) []).

(** A bundle entry the pass replaces: a stylesheet asset for which the
    engine's result has a first element. *)
Definition purged {ext : Externals} (purgeOptions : option PurgeOptions)
    (rootDir : string) (std : StringRegExpArray) (kv : string * ChunkOrAsset) : bool :=
  match snd kv with
  | IsAsset a =>
      EXT_CSS_test (fst kv) && is_some (first_result purgeOptions rootDir std (fst kv, a))
  | IsChunk _ => false
  end.

(** Further builds: a bundle without stylesheets, a stylesheet held as
    bytes, a module that does not parse. *)
Module Edge.

Definition plain_bundle : OutputBundle :=
  [ ("index.js", IsChunk {| chunkFileName := "index.js"; chunkCode := "x" |});
    ("logo.svg", IsAsset Demo.logo) ].

Definition binary_css : Asset :=
  {| fileName := "font.css"; assetName := None;
     needsCodeReference := false; source := Bytes ["a"%char] |}.

Definition binary_bundle : OutputBundle :=
  [ ("assets/style.css", IsAsset Demo.style); ("font.css", IsAsset binary_css) ].

(** An instance on which [configResolved] was never called. *)
Definition unconfigured : Plugin :=
  load (purgeCss Demo.userOptions) "src/app.js".

(** A host whose every module is included and has text that does not
    parse. *)
Definition broken : PluginContext :=
  {| getModuleInfo := fun _ => Some {| isIncluded := Some true; code := Some "?" |};
     parse := parse Demo.this |}.

(** The host of [Demo] at an earlier build, when [src/dead.js] was still
    included. *)
Definition earlier : PluginContext :=
  {| getModuleInfo := fun id =>
       if String.eqb id "src/dead.js"
       then Some {| isIncluded := Some true; code := Some "dead" |}
       else getModuleInfo Demo.this id;
     parse := parse Demo.this |}.

Definition earlier_pass : Result (Plugin * Output) :=
  generateBundle (ext := Demo.ext) Demo.userOptions earlier Demo.ready Demo.bundle.

Definition after_earlier : Plugin :=
  match earlier_pass with
  | Ok (p, _) => p
  | Throw _ => Demo.ready
  end.

Definition out_earlier : Output :=
  match earlier_pass with
  | Ok (_, out) => out
  | Throw _ => no_output
  end.

Definition later_pass : Result (Plugin * Output) :=
  generateBundle (ext := Demo.ext) Demo.userOptions Demo.this after_earlier Demo.bundle.

Definition after_later : Plugin :=
  match later_pass with
  | Ok (p, _) => p
  | Throw _ => after_earlier
  end.

Definition out_later : Output :=
  match later_pass with
  | Ok (_, out) => out
  | Throw _ => no_output
  end.

(** A host with three included modules: the first parses, the other two
    do not, each with an error of its own. *)
Definition half_broken : PluginContext :=
  {| getModuleInfo := fun id => Some {| isIncluded := Some true; code := Some id |};
     parse := fun text =>
       if String.eqb text "src/app.js" then Ok Demo.app_js
       else if String.eqb text "src/b.js"
       then Throw (Error "SyntaxError" "Unexpected token in b")
       else Throw (Error "SyntaxError" "Unexpected token in c") |}.

Definition three_modules : Plugin :=
  load (load (load (purgeCss Demo.userOptions) "src/app.js") "src/b.js") "src/c.js".

End Edge.

(** * Properties *)

(** ** Sets, loops and the tree walk *)

Lemma has_In (x : string) (s : StringSet) : has x s = true <-> In x s.
Proof.
  unfold has. rewrite existsb_exists. split.
  - intros (y & Hy & E). apply String.eqb_eq in E. now subst.
  - intros H. exists x. split; [assumption | apply String.eqb_refl].
Qed.

Lemma add_extends (x : string) (s : StringSet) : exists l, add x s = s ++ l.
Proof.
  unfold add. destruct (has x s).
  - exists []. now rewrite app_nil_r.
  - now exists [x].
Qed.

Lemma In_add (x y : string) (s : StringSet) : In y (add x s) <-> y = x \/ In y s.
Proof.
  unfold add. destruct (has x s) eqn:E.
  - apply has_In in E. split; [now right | intros [-> | H]; assumption].
  - rewrite in_app_iff. simpl. intuition congruence.
Qed.

Lemma add_each_extends (xs : list string) (s : StringSet) :
  exists l, add_each xs s = s ++ l.
Proof.
  unfold add_each. revert s. induction xs as [| x xs IH]; intros s; simpl.
  - exists []. now rewrite app_nil_r.
  - destruct (add_extends x s) as [l1 E1]. destruct (IH (add x s)) as [l2 E2].
    exists (l1 ++ l2). now rewrite E2, E1, app_assoc.
Qed.

Lemma In_add_each (xs : list string) (y : string) (s : StringSet) :
  In y (add_each xs s) <-> In y xs \/ In y s.
Proof.
  unfold add_each. revert s. induction xs as [| x xs IH]; intros s; simpl.
  - intuition.
  - rewrite IH, In_add. intuition congruence.
Qed.


(** Induction over a tree whose children sit in a list. *)
Lemma Node_tree_ind (P : Node -> Prop) :
  (forall v, P (Literal v)) ->
  (forall n, P (Identifier n)) ->
  (forall c r, P (TemplateElement c r)) ->
  (forall t children, Forall P children -> P (Other t children)) ->
  forall node, P node.
Proof.
  intros HL HI HT HO. fix IH 1. intros [v | n | c r | t children].
  - apply HL.
  - apply HI.
  - apply HT.
  - apply HO. induction children as [| child rest IHrest].
    + constructor.
    + constructor; [apply IH | apply IHrest].
Qed.

Lemma fold_left_flat_map {A B C} (f : A -> C -> A) (g : B -> list C) (l : list B) (a : A) :
  fold_left f (flat_map g l) a = fold_left (fun acc x => fold_left f (g x) acc) l a.
Proof.
  revert a. induction l as [| x l IH]; intros a; simpl.
  - reflexivity.
  - now rewrite fold_left_app, IH.
Qed.

Lemma fold_left_pointwise {A B} (f g : A -> B -> A) (l : list B) :
  Forall (fun x => forall a, f a x = g a x) l ->
  forall a, fold_left f l a = fold_left g l a.
Proof.
  induction 1 as [| x l Hx _ IH]; intros a; simpl.
  - reflexivity.
  - now rewrite Hx, IH.
Qed.

(** The walk calls [enter] once on every node, parents first. *)
Lemma walk_nodes_of {S} (enter : Node -> S -> S) (node : Node) :
  forall st, walk enter node st = fold_left (fun acc n => enter n acc) (nodes_of node) st.
Proof.
  induction node as [v | n | c r | t children IH] using Node_tree_ind; intros st;
    try reflexivity.
  cbn [walk nodes_of fold_left]. rewrite fold_left_flat_map.
  apply fold_left_pointwise. exact IH.
Qed.

Section Properties.

Context {ext : Externals}.
Variable purgeOptions : option PurgeOptions.


(** *** Module scanner *)

Lemma enter_candidate_text (node : Node) (s : StringSet) :
  enter purgeOptions node s =
  match candidate_text node with
  | Some text => add_each (extractor purgeOptions text) s
  | None => s
  end.
Proof.
  destruct node as [[v | b | n | | p f] | n | [c |] r | t children]; reflexivity.
Qed.

Lemma In_fold_enter (nodes : list Node) (tok : string) :
  forall s,
    In tok (fold_left (fun acc n => enter purgeOptions n acc) nodes s) <->
    In tok s \/
    exists node text,
      In node nodes /\ candidate_text node = Some text /\ In tok (extractor purgeOptions text).
Proof.
  induction nodes as [| n nodes IH]; intros s; simpl.
  - split; [now left | intros [H | (? & ? & [] & _)]; exact H].
  - rewrite IH, enter_candidate_text. split.
    + intros [H | (m & text & Hm & Ht & Htok)].
      * destruct (candidate_text n) as [text |] eqn:E; [| now left].
        apply In_add_each in H. destruct H as [H | H]; [| now left].
        right. exists n, text. auto.
      * right. exists m, text. auto.
    + intros [H | (m & text & [-> | Hm] & Ht & Htok)].
      * left. destruct (candidate_text n); [apply In_add_each |]; auto.
      * left. rewrite Ht. apply In_add_each. now left.
      * right. exists m, text. auto.
Qed.

Lemma In_walk (ast : Node) (tok : string) (s : StringSet) :
  In tok (walk (enter purgeOptions) ast s) <-> In tok s \/ token_of_tree purgeOptions ast tok.
Proof. rewrite walk_nodes_of. apply In_fold_enter. Qed.

Lemma fold_enter_extends (nodes : list Node) :
  forall s, exists l, fold_left (fun acc n => enter purgeOptions n acc) nodes s = s ++ l.
Proof.
  induction nodes as [| n nodes IH]; intros s; simpl.
  - exists []. now rewrite app_nil_r.
  - destruct (IH (enter purgeOptions n s)) as [l2 E2]. rewrite E2, enter_candidate_text.
    destruct (candidate_text n) as [text |].
    + destruct (add_each_extends (extractor purgeOptions text) s) as [l1 E1].
      exists (l1 ++ l2). now rewrite E1, app_assoc.
    + now exists l2.
Qed.

Lemma scan_module_scanned_text (this : PluginContext) (s : StringSet) (id : string) :
  scan_module purgeOptions this s id =
  match scanned_text this id with
  | Some text => ast <- parse this text ;; Ok (walk (enter purgeOptions) ast s)
  | None => Ok s
  end.
Proof.
  unfold scan_module, scanned_text.
  destruct (getModuleInfo this id) as [[[[|] |] [text |]] |]; reflexivity.
Qed.

Lemma scan_modules_spec (this : PluginContext) (ids : list string) :
  forall s s',
    for_of (scan_module purgeOptions this) ids s = Ok s' ->
    (exists l, s' = s ++ l) /\
    (forall tok, In tok s' <->
                 In tok s \/ exists id, In id ids /\ token_of_module purgeOptions this id tok).
Proof.
  induction ids as [| id ids IH]; intros s s' H; simpl in H.
  - injection H as <-. split.
    + exists []. now rewrite app_nil_r.
    + intros tok. split; [now left | intros [Hs | (? & [] & _)]; exact Hs].
  - rewrite scan_module_scanned_text in H.
    destruct (scanned_text this id) as [text |] eqn:Etext.
    + destruct (parse this text) as [ast | e] eqn:Eparse; simpl in H; [| discriminate].
      destruct (IH _ _ H) as [[l2 E2] Hin]. split.
      * rewrite walk_nodes_of in E2.
        destruct (fold_enter_extends (nodes_of ast) s) as [l1 E1].
        exists (l1 ++ l2). now rewrite E2, E1, app_assoc.
      * intros tok. rewrite Hin, In_walk. split.
        -- intros [[Hs | Ht] | (id' & Hid & Hm)].
           ++ now left.
           ++ right. exists id. split; [now left |]. now exists text, ast.
           ++ right. exists id'. split; [now right | exact Hm].
        -- intros [Hs | (id' & [<- | Hid] & Hm)].
           ++ now left; left.
           ++ destruct Hm as (text' & ast' & Et & Ep & Htok).
              rewrite Etext in Et. injection Et as <-.
              rewrite Eparse in Ep. injection Ep as <-. now left; right.
           ++ right. now exists id'.
    + simpl in H. destruct (IH _ _ H) as [Hext Hin]. split; [exact Hext |].
      intros tok. rewrite Hin. split.
      * intros [Hs | (id' & Hid & Hm)]; [now left |].
        right. exists id'. split; [now right | exact Hm].
      * intros [Hs | (id' & [<- | Hid] & Hm)]; [now left | |].
        -- destruct Hm as (text' & ast' & Et & _). congruence.
        -- right. now exists id'.
Qed.

Lemma skipped_scanned_text (this : PluginContext) (id : string) :
  skipped this id <-> scanned_text this id = None.
Proof.
  unfold skipped, scanned_text.
  destruct (getModuleInfo this id) as [[[[|] |] [text |]] |]; simpl;
    intuition congruence.
Qed.

(** *** Selector validator *)

Lemma validate_selector_spec (std : StringRegExpArray) (t : string) :
  validate_selector std t = Ok (if valid_token t then std ++ [Str t] else std).
Proof.
  unfold validate_selector, valid_token.
  destruct (css_what_parse t) as [[] | e1]; simpl; [| reflexivity].
  destruct (RegExp_new t) as [[] | e2]; reflexivity.
Qed.

Lemma validate_all (sels : list string) :
  forall std,
    for_of validate_selector sels std = Ok (std ++ map Str (filter valid_token sels)).
Proof.
  induction sels as [| t sels IH]; intros std; simpl.
  - now rewrite app_nil_r.
  - rewrite validate_selector_spec. simpl. rewrite IH.
    destruct (valid_token t); simpl; [now rewrite <- app_assoc | reflexivity].
Qed.

Lemma valid_token_iff (t : string) :
  valid_token t = true <->
  returns (css_what_parse t) = true /\ returns (RegExp_new t) = true.
Proof. unfold valid_token. apply andb_true_iff. Qed.

(** *** The hook as a pipeline *)

(** The scan, then the purge loop over a safelist that is already
    complete; the validation loop has no outcome of its own. *)
Lemma generateBundle_pipeline (this : PluginContext) (p : Plugin) (b : OutputBundle) :
  generateBundle purgeOptions this p b =
  (sels <- for_of (scan_module purgeOptions this) (moduleIds p) (selectors p) ;;
   out <- for_of
            (purge_asset purgeOptions (viteConfig p)
               (standard p ++ map Str (filter valid_token sels)))
            (collect_assets b) {| bundle := b; emitted := []; calls := [] |} ;;
   Ok ({| viteConfig := viteConfig p;
          selectors := sels;
          standard := standard p ++ map Str (filter valid_token sels);
          moduleIds := moduleIds p |}, out)).
Proof.
  unfold generateBundle.
  destruct (for_of (scan_module purgeOptions this) (moduleIds p) (selectors p));
    simpl; [| reflexivity].
  now rewrite validate_all.
Qed.

Lemma generateBundle_Ok (this : PluginContext) (p p' : Plugin) (b : OutputBundle)
    (out : Output) :
  generateBundle purgeOptions this p b = Ok (p', out) ->
  for_of (scan_module purgeOptions this) (moduleIds p) (selectors p) = Ok (selectors p') /\
  standard p' = standard p ++ map Str (filter valid_token (selectors p')) /\
  viteConfig p' = viteConfig p /\
  moduleIds p' = moduleIds p /\
  for_of (purge_asset purgeOptions (viteConfig p) (standard p'))
    (collect_assets b) {| bundle := b; emitted := []; calls := [] |} = Ok out.
Proof.
  rewrite generateBundle_pipeline.
  destruct (for_of (scan_module purgeOptions this) (moduleIds p) (selectors p))
    as [sels | e]; simpl; [| discriminate].
  destruct (for_of _ (collect_assets b) _) as [o | e] eqn:E; simpl; [| discriminate].
  intros H. injection H as <- <-. simpl. auto.
Qed.

(** *** Claims about discovery and validation *)

(** C1.  A discovered token is pushed onto the standard safelist exactly
    when [css-what] parses it and [RegExp] compiles it; the loop that
    decides this returns normally whatever the two checks do, so when
    [generateBundle] throws, the exception is the scan's or the purge
    loop's. *)
Theorem tokens_admitted_iff_valid (this : PluginContext) (p : Plugin) (b : OutputBundle) :
  (forall sels std,
      for_of validate_selector sels std = Ok (std ++ map Str (filter valid_token sels)))
  /\ (forall sels t,
         In t (filter valid_token sels) <->
         In t sels /\ returns (css_what_parse t) = true /\ returns (RegExp_new t) = true)
  /\ match generateBundle purgeOptions this p b with
     | Ok (p', out) =>
         standard p' = standard p ++ map Str (filter valid_token (selectors p'))
     | Throw e =>
         for_of (scan_module purgeOptions this) (moduleIds p) (selectors p) = Throw e \/
         exists sels,
           for_of (scan_module purgeOptions this) (moduleIds p) (selectors p) = Ok sels /\
           for_of
             (purge_asset purgeOptions (viteConfig p)
                (standard p ++ map Str (filter valid_token sels)))
             (collect_assets b) {| bundle := b; emitted := []; calls := [] |} = Throw e
     end.
Proof.
  split; [intros sels std; apply validate_all |].
  split; [intros sels t; rewrite filter_In, valid_token_iff; reflexivity |].
  destruct (generateBundle purgeOptions this p b) as [[p' out] | e] eqn:E.
  - now apply generateBundle_Ok in E.
  - rewrite generateBundle_pipeline in E.
    destruct (for_of (scan_module purgeOptions this) (moduleIds p) (selectors p))
      as [sels | e1]; simpl in E.
    + right. exists sels. split; [reflexivity |].
      destruct (for_of _ (collect_assets b) _) as [o | e2]; simpl in E;
        [discriminate | congruence].
    + left. congruence.
Qed.


(** C5.  A tracked module that is not included in the final build, or
    whose code is unavailable, is not scanned: the loop body leaves the
    candidate set as it is without calling the parser, the pass yields the
    same candidates with the module removed from the tracked set, and
    every candidate after the pass was there before it or is a token of a
    module that is included and has its code. *)
Theorem skipped_modules_contribute_nothing (this : PluginContext) (p p' : Plugin)
    (b : OutputBundle) (out : Output) (id : string) :
  generateBundle purgeOptions this p b = Ok (p', out) ->
  skipped this id ->
  (forall s, scan_module purgeOptions this s id = Ok s)
  /\ for_of (scan_module purgeOptions this)
       (remove string_dec id (moduleIds p)) (selectors p) = Ok (selectors p')
  /\ (forall tok,
         In tok (selectors p') <->
         In tok (selectors p) \/
         exists id' info text ast,
           In id' (moduleIds p) /\ getModuleInfo this id' = Some info /\
           isIncluded info = Some true /\ code info = Some text /\
           parse this text = Ok ast /\ token_of_tree purgeOptions ast tok).
Proof.
  intros H Hskip. apply generateBundle_Ok in H. destruct H as (Hscan & _).
  apply skipped_scanned_text in Hskip.
  assert (Hid : forall s, scan_module purgeOptions this s id = Ok s).
  { intros s. now rewrite scan_module_scanned_text, Hskip. }
  split; [exact Hid | split].
  - revert Hscan. generalize (selectors p). generalize (selectors p').
    induction (moduleIds p) as [| x ids IH]; intros s' s Hscan; simpl in *.
    + exact Hscan.
    + destruct (string_dec id x) as [<- | Hne].
      * rewrite Hid in Hscan. simpl in Hscan. now apply IH.
      * simpl. destruct (scan_module purgeOptions this s x); simpl in *;
          [now apply IH | discriminate].
  - intros tok. destruct (scan_modules_spec _ _ _ _ Hscan) as [_ Hin].
    rewrite Hin. split.
    + intros [Hs | (id' & Hid' & text & ast & Et & Ep & Htok)]; [now left |].
      right. unfold scanned_text in Et.
      destruct (getModuleInfo this id') as [info |] eqn:Einfo; [| discriminate].
      destruct (isIncluded info) as [[|] |] eqn:Einc; try discriminate.
      now exists id', info, text, ast.
    + intros [Hs | (id' & info & text & ast & Hid' & Ei & Einc & Ec & Ep & Htok)];
        [now left |].
      right. exists id'. split; [exact Hid' |]. exists text, ast.
      unfold scanned_text. now rewrite Ei, Einc.
Qed.

(** *** Purge orchestrator *)

Lemma set_fresh {V} (k : string) (v : V) (o : Obj V) :
  ~ In k (keys o) -> Js.set k v o = o ++ [(k, v)].
Proof.
  induction o as [| [k' v'] o IH]; simpl; intros Hk.
  - reflexivity.
  - destruct (String.eqb k k') eqn:E.
    + apply String.eqb_eq in E. exfalso. apply Hk. now left.
    + rewrite IH; [reflexivity |]. intros H. apply Hk. now right.
Qed.

Lemma In_css_assets (b : OutputBundle) (k : string) (a : Asset) :
  In (k, a) (css_assets b) <-> In (k, IsAsset a) b /\ EXT_CSS_test k = true.
Proof.
  unfold css_assets. rewrite in_flat_map. split.
  - intros ([k' [a' | c]] & Hin & H); simpl in H; [| contradiction].
    destruct (EXT_CSS_test k') eqn:E; [| contradiction].
    destruct H as [H | []]. injection H as <- <-. auto.
  - intros [Hin E]. exists (k, IsAsset a). simpl. rewrite E. simpl. auto.
Qed.

(** With distinct keys the [assets] object lists the stylesheet assets in
    bundle order. *)
Lemma collect_assets_css_assets (b : OutputBundle) :
  NoDup (keys b) -> collect_assets b = css_assets b.
Proof.
  unfold collect_assets.
  enough (G : forall acc,
             NoDup (keys b) -> (forall k, In k (keys acc) -> ~ In k (keys b)) ->
             fold_left
               (fun assets entry =>
                  match entry with
                  | (fileName, IsAsset a) =>
                      if EXT_CSS_test fileName then Js.set fileName a assets else assets
                  | (_, IsChunk _) => assets
                  end) b acc = acc ++ css_assets b).
  { intros Hb. apply (G [] Hb). intros k []. }
  induction b as [| [k [a | c]] b IH]; intros acc Hnd Hacc; simpl.
  - now rewrite app_nil_r.
  - simpl in Hnd. inversion Hnd as [| ? ? Hk Hnd']; subst.
    destruct (EXT_CSS_test k) eqn:E.
    + rewrite set_fresh by (intros H; apply (Hacc k H); now left).
      rewrite IH; [now rewrite <- app_assoc | exact Hnd' |].
      intros k' Hk'. unfold keys in Hk'. rewrite map_app, in_app_iff in Hk'.
      destruct Hk' as [Hk' | [<- | []]]; [| exact Hk].
      intros Hb. apply (Hacc k' Hk'). now right.
    + apply IH; [exact Hnd' |]. intros k' Hk' Hb. apply (Hacc k' Hk'). now right.
  - simpl in Hnd. inversion Hnd as [| ? ? Hk Hnd']; subst.
    apply IH; [exact Hnd' |]. intros k' Hk' Hb. apply (Hacc k' Hk'). now right.
Qed.

(** Whatever the keys are, an entry of [assets] is a stylesheet asset of
    the bundle. *)
Lemma In_collect_assets (b : OutputBundle) (k : string) (a : Asset) :
  In (k, a) (collect_assets b) -> In (k, IsAsset a) b /\ EXT_CSS_test k = true.
Proof.
  unfold collect_assets.
  enough (G : forall acc,
             In (k, a)
               (fold_left
                  (fun assets entry =>
                     match entry with
                     | (fileName, IsAsset a) =>
                         if EXT_CSS_test fileName then Js.set fileName a assets else assets
                     | (_, IsChunk _) => assets
                     end) b acc) ->
             In (k, a) acc \/ (In (k, IsAsset a) b /\ EXT_CSS_test k = true)).
  { intros H. destruct (G [] H) as [[] | G']. exact G'. }
  assert (Hset : forall k' a' (o : Obj Asset),
             In (k, a) (Js.set k' a' o) -> In (k, a) o \/ (k, a) = (k', a')).
  { intros k' a' o. induction o as [| [k2 a2] o IHo]; simpl.
    - intros [H | []]; right; now symmetry.
    - destruct (String.eqb k' k2); simpl; intros [H | H].
      + right. now symmetry.
      + left. now right.
      + left. now left.
      + destruct (IHo H) as [H' | H']; [left; now right | now right]. }
  induction b as [| [k' [a' | c]] b IH]; intros acc H; simpl in H.
  - now left.
  - destruct (EXT_CSS_test k') eqn:E.
    + destruct (IH _ H) as [H1 | [H1 H2]].
      * destruct (Hset _ _ _ H1) as [H3 | H3]; [now left |].
        injection H3 as <- <-. right. split; [now left | exact E].
      * right. split; [now right | exact H2].
    + destruct (IH _ H) as [H1 | [H1 H2]]; [now left |].
      right. split; [now right | exact H2].
  - destruct (IH _ H) as [H1 | [H1 H2]]; [now left |].
    right. split; [now right | exact H2].
Qed.

(** One iteration of the purge loop that returns. *)
Lemma purge_asset_Ok (cfg : option ResolvedConfig) (std : StringRegExpArray)
    (out out' : Output) (entry : string * Asset) :
  purge_asset purgeOptions cfg std out entry = Ok out' ->
  exists config text results,
    cfg = Some config /\ source (snd entry) = Text text /\
    purge (call_for purgeOptions (root config) std entry) = Ok results /\
    calls out' = calls out ++ [call_for purgeOptions (root config) std entry] /\
    match first_result purgeOptions (root config) std entry with
    | Some first =>
        bundle out' = Js.delete (fileName (snd entry)) (bundle out) /\
        emitted out' = emitted out ++ [with_source (snd entry) (rp_css first)]
    | None => bundle out' = bundle out /\ emitted out' = emitted out
    end.
Proof.
  destruct entry as [k a]. unfold purge_asset, first_result, call_for, asset_text.
  destruct cfg as [config |]; simpl; [| discriminate].
  destruct (source a) as [text | bytes] eqn:Esrc; simpl; [| discriminate].
  destruct (purge (purge_options purgeOptions (root config) std k text))
    as [[| first rest] | e] eqn:Ep; simpl; [| | discriminate];
    intros H; injection H as <-; exists config, text; eexists;
    simpl; rewrite Ep; repeat split; reflexivity.
Qed.

Lemma filter_filter {A} (f g : A -> bool) (l : list A) :
  filter f (filter g l) = filter (fun x => g x && f x) l.
Proof.
  induction l as [| x l IH]; simpl; [reflexivity |].
  destruct (g x); simpl; [destruct (f x) |]; now rewrite IH.
Qed.

Lemma filter_all {A} (f : A -> bool) (l : list A) :
  (forall x, f x = true) -> filter f l = l.
Proof.
  intros Hf. induction l as [| x l IH]; simpl; [reflexivity |].
  now rewrite Hf, IH.
Qed.

(** The purge loop that returns: what it called, emitted and deleted. *)
Lemma purge_loop_Ok (cfg : option ResolvedConfig) (std : StringRegExpArray)
    (l : list (string * Asset)) :
  forall out0 out,
    for_of (purge_asset purgeOptions cfg std) l out0 = Ok out ->
    Forall (fun e => exists config text results,
                cfg = Some config /\ source (snd e) = Text text /\
                purge (call_for purgeOptions (root_of cfg) std e) = Ok results) l /\
    calls out = calls out0 ++ map (call_for purgeOptions (root_of cfg) std) l /\
    emitted out = emitted out0 ++ flat_map (emits purgeOptions (root_of cfg) std) l /\
    bundle out =
      filter (fun kv => forallb (fun e => negb (replaces purgeOptions (root_of cfg) std e kv)) l)
        (bundle out0).
Proof.
  induction l as [| e l IH]; intros out0 out H; simpl in H.
  - injection H as <-. simpl. rewrite !app_nil_r.
    rewrite filter_all by reflexivity. auto.
  - destruct (purge_asset purgeOptions cfg std out0 e) as [out1 | err] eqn:E1;
      simpl in H; [| discriminate].
    apply purge_asset_Ok in E1.
    destruct E1 as (config & text & results & -> & Hsrc & Hp & Hcalls & Hfirst).
    destruct (IH _ _ H) as (Hall & Hc & He & Hb). simpl root_of in *.
    split; [| split; [| split]].
    + constructor; [| exact Hall]. now exists config, text, results.
    + rewrite Hc, Hcalls. simpl. now rewrite <- app_assoc.
    + rewrite He. simpl. rewrite app_assoc. f_equal. unfold emits.
      destruct (first_result purgeOptions (root config) std e) as [first |];
        destruct Hfirst as [_ ->]; [reflexivity | now rewrite app_nil_r].
    + assert (Hb1 : bundle out1 =
                    filter (fun kv => negb (replaces purgeOptions (root config) std e kv))
                      (bundle out0)).
      { unfold replaces.
        destruct (first_result purgeOptions (root config) std e) as [first |];
          destruct Hfirst as [-> _]; simpl; [reflexivity |].
        now rewrite filter_all. }
      rewrite Hb, Hb1, filter_filter. reflexivity.
Qed.

(** Under the host's bundle shape, an iteration deletes exactly the entry
    it was started for. *)
Lemma replaces_own_entry (b : OutputBundle) (rootDir : string)
    (std : StringRegExpArray) (e : string * Asset) (kv : string * ChunkOrAsset) :
  host_bundle b -> In e (css_assets b) -> In kv b ->
  replaces purgeOptions rootDir std e kv = true ->
  kv = (fst e, IsAsset (snd e)).
Proof.
  intros [Hnd Hname] He Hkv Hr. destruct e as [k a]. destruct kv as [k' v].
  apply In_css_assets in He. destruct He as [Hin _].
  unfold replaces in Hr. apply andb_true_iff in Hr. destruct Hr as [_ Hr].
  apply String.eqb_eq in Hr. simpl in *. rewrite (Hname _ _ Hin) in Hr. subst k'.
  f_equal. clear Hname. unfold keys in Hnd.
  induction b as [| [k0 v0] b IH]; [contradiction |].
  simpl in Hnd. inversion Hnd as [| ? ? Hk0 Hnd']; subst.
  destruct Hin as [Hin | Hin], Hkv as [Hkv | Hkv].
  - congruence.
  - injection Hin as -> _. exfalso. apply Hk0.
    change k with (fst (k, v)). now apply in_map.
  - injection Hkv as -> _. exfalso. apply Hk0.
    change k with (fst (k, IsAsset a)). now apply in_map.
  - now apply IH.
Qed.

Lemma keys_functional {V} (o : Obj V) (k : string) (v v' : V) :
  NoDup (keys o) -> In (k, v) o -> In (k, v') o -> v = v'.
Proof.
  unfold keys. induction o as [| [k0 v0] o IH]; simpl; [contradiction |].
  intros Hnd Hv Hv'. inversion Hnd as [| ? ? Hk0 Hnd']; subst.
  destruct Hv as [Hv | Hv], Hv' as [Hv' | Hv'].
  - congruence.
  - injection Hv as -> _. exfalso. apply Hk0.
    change k with (fst (k, v')). now apply in_map.
  - injection Hv' as -> _. exfalso. apply Hk0.
    change k with (fst (k, v)). now apply in_map.
  - now apply IH.
Qed.

(** C8.  Whatever options the user gave, each option object handed to the
    purge engine is made for one stylesheet asset of the bundle: its [css]
    is the single entry holding [trim] of the asset's text, named by the
    asset's key in the bundle, which in a bundle of the host's shape is the
    asset's file name; [rejected] and [rejectedCss] are [true]; and
    [content] is the glob [join(root, '**/*.html')] followed by the
    [content] entries of the user's options. *)
Theorem engine_call_options (this : PluginContext) (p p' : Plugin)
    (b : OutputBundle) (out : Output) (o : Options) :
  generateBundle purgeOptions this p b = Ok (p', out) ->
  In o (calls out) ->
  exists k a config text,
    In (k, IsAsset a) b /\ EXT_CSS_test k = true /\
    viteConfig p = Some config /\ source a = Text text /\
    (host_bundle b -> k = fileName a) /\
    css o = Some [ {| raw := trim text; name := k |} ] /\
    rejected o = Some true /\ rejectedCss o = Some true /\
    content o =
      Some (Glob (join (root config) "**/*.html") ::
            nullish (chain purgeOptions content) []).
Proof.
  intros H Ho. apply generateBundle_Ok in H. destruct H as (_ & _ & _ & _ & Hloop).
  apply purge_loop_Ok in Hloop. destruct Hloop as (Hall & Hcalls & _).
  rewrite Hcalls in Ho. simpl in Ho. apply in_map_iff in Ho.
  destruct Ho as ([k a] & <- & He).
  rewrite Forall_forall in Hall.
  destruct (Hall _ He) as (config & text & results & Hcfg & Hsrc & _).
  apply In_collect_assets in He. destruct He as [Hin Hext].
  exists k, a, config, text. rewrite Hcfg. simpl in *.
  unfold call_for, asset_text. simpl. rewrite Hsrc.
  repeat split; try assumption; try reflexivity.
  intros [_ Hname]. symmetry. now apply Hname.
Qed.

(** C3.  For a stylesheet asset of a bundle in the host's shape, in a pass
    that returns: the engine was called for it; when the engine's result
    has a first element, no entry is left under the asset's file name and
    an asset with the same fields, its source replaced by the purged CSS,
    was emitted; when the result is empty, the asset's entry is still in
    the bundle and nothing was emitted under its name. *)
Theorem css_asset_replaced_or_kept (this : PluginContext) (p p' : Plugin)
    (b : OutputBundle) (out : Output) (k : string) (a : Asset) :
  host_bundle b ->
  generateBundle purgeOptions this p b = Ok (p', out) ->
  In (k, IsAsset a) b -> EXT_CSS_test k = true ->
  exists config text results,
    viteConfig p = Some config /\ source a = Text text /\
    In (purge_options purgeOptions (root config) (standard p') k text) (calls out) /\
    purge (purge_options purgeOptions (root config) (standard p') k text) = Ok results /\
    match results with
    | first :: _ =>
        ~ In k (keys (bundle out)) /\
        In {| fileName := fileName a; assetName := assetName a;
              needsCodeReference := needsCodeReference a;
              source := Text (rp_css first) |} (emitted out)
    | [] =>
        In (k, IsAsset a) (bundle out) /\
        forall f, In f (emitted out) -> fileName f <> k
    end.
Proof.
  intros Hhost H Hin Hext. pose proof Hhost as [Hnd Hname].
  apply generateBundle_Ok in H. destruct H as (_ & _ & _ & _ & Hloop).
  rewrite (collect_assets_css_assets b Hnd) in Hloop.
  apply purge_loop_Ok in Hloop. destruct Hloop as (Hall & Hcalls & Hem & Hb).
  simpl in Hcalls, Hem, Hb.
  assert (He : In (k, a) (css_assets b)) by (apply In_css_assets; auto).
  rewrite Forall_forall in Hall.
  destruct (Hall _ He) as (config & text & results & Hcfg & Hsrc & Hp).
  simpl in Hsrc. rewrite Hcfg in *. simpl root_of in *.
  assert (Hcall : call_for purgeOptions (root config) (standard p') (k, a) =
                  purge_options purgeOptions (root config) (standard p') k text).
  { unfold call_for, asset_text. simpl. now rewrite Hsrc. }
  exists config, text, results. rewrite <- Hcall.
  split; [reflexivity | split; [exact Hsrc |]].
  split; [rewrite Hcalls; now apply in_map |].
  split; [exact Hp |].
  assert (Hfirst : first_result purgeOptions (root config) (standard p') (k, a) =
                   match results with first :: _ => Some first | [] => None end).
  { unfold first_result. rewrite Hp. now destruct results. }
  destruct results as [| first rest].
  - split.
    + rewrite Hb. apply filter_In. split; [exact Hin |].
      apply forallb_forall. intros e' He'. apply negb_true_iff.
      destruct (replaces purgeOptions (root config) (standard p') e' (k, IsAsset a))
        eqn:Er; [| reflexivity].
      pose proof (replaces_own_entry _ _ _ _ _ Hhost He' Hin Er) as Eq.
      destruct e' as [k' a']. simpl in Eq. injection Eq as <- <-.
      unfold replaces in Er. rewrite Hfirst in Er. discriminate.
    + intros f Hf Hk. rewrite Hem in Hf. apply in_flat_map in Hf.
      destruct Hf as ([k' a'] & He' & Hf). unfold emits in Hf.
      destruct (first_result purgeOptions (root config) (standard p') (k', a'))
        as [first |] eqn:E'; [| contradiction].
      destruct Hf as [<- | []]. simpl in Hk.
      pose proof He' as He''. apply In_css_assets in He''. destruct He'' as [Hin' _].
      rewrite (Hname _ _ Hin') in Hk. subst k'.
      pose proof (keys_functional _ _ _ _ Hnd Hin Hin') as Eq. injection Eq as <-.
      congruence.
  - split.
    + unfold keys. rewrite in_map_iff. intros ([k' v] & Hk & Hkv).
      simpl in Hk. subst k'. rewrite Hb in Hkv. apply filter_In in Hkv.
      destruct Hkv as [_ Hforall]. rewrite forallb_forall in Hforall.
      specialize (Hforall _ He). apply negb_true_iff in Hforall.
      unfold replaces in Hforall. rewrite Hfirst in Hforall. simpl in Hforall.
      rewrite (Hname _ _ Hin), String.eqb_refl in Hforall. discriminate.
    + rewrite Hem. apply in_flat_map. exists (k, a). split; [exact He |].
      unfold emits. rewrite Hfirst. now left.
Qed.

(** C6.  In a pass that returns, on a bundle in the host's shape, an entry
    that is not an asset under a name ending in [.css] is in the bundle
    afterwards as it was, in its place among such entries; no engine call
    carries its name, and no emitted file has its name. *)
Theorem other_entries_untouched (this : PluginContext) (p p' : Plugin)
    (b : OutputBundle) (out : Output) (kv : string * ChunkOrAsset) :
  host_bundle b ->
  generateBundle purgeOptions this p b = Ok (p', out) ->
  In kv b -> is_css_asset kv = false ->
  In kv (bundle out)
  /\ filter (fun e => negb (is_css_asset e)) (bundle out) =
     filter (fun e => negb (is_css_asset e)) b
  /\ (forall o cs c, In o (calls out) -> css o = Some cs -> In c cs -> name c <> fst kv)
  /\ (forall f, In f (emitted out) -> fileName f <> fst kv).
Proof.
  intros Hhost H Hin Hcss. pose proof Hhost as [Hnd Hname].
  apply generateBundle_Ok in H. destruct H as (_ & _ & _ & _ & Hloop).
  rewrite (collect_assets_css_assets b Hnd) in Hloop.
  apply purge_loop_Ok in Hloop. destruct Hloop as (_ & Hcalls & Hem & Hb).
  simpl in Hcalls, Hem, Hb.
  set (rootDir := root_of (viteConfig p)) in *.
  assert (Hkeep : forall x, In x b -> is_css_asset x = false ->
            forallb (fun e => negb (replaces purgeOptions rootDir (standard p') e x))
              (css_assets b) = true).
  { intros x Hx Hxcss. apply forallb_forall. intros e He. apply negb_true_iff.
    destruct (replaces purgeOptions rootDir (standard p') e x) eqn:Er; [| reflexivity].
    pose proof (replaces_own_entry _ _ _ _ _ Hhost He Hx Er) as ->.
    destruct e as [k a]. apply In_css_assets in He. destruct He as [_ He].
    unfold is_css_asset in Hxcss. simpl in *. congruence. }
  assert (Hown : forall k a, In (k, a) (css_assets b) -> k <> fst kv).
  { intros k a He ->. apply In_css_assets in He. destruct He as [Hka Hext].
    destruct kv as [k v]. simpl in *.
    rewrite (keys_functional _ _ _ _ Hnd Hin Hka) in Hcss.
    unfold is_css_asset in Hcss. simpl in Hcss. congruence. }
  split; [| split; [| split]].
  - rewrite Hb. apply filter_In. split; [exact Hin | now apply Hkeep].
  - rewrite Hb, filter_filter. clear Hin Hcss Hown.
    assert (Hsub : forall x, In x b -> In x b) by auto.
    revert Hsub. generalize b at 1 4 5. intros l.
    induction l as [| x l IH]; intros Hsub; simpl; [reflexivity |].
    destruct (is_css_asset x) eqn:Ex; simpl.
    + rewrite andb_false_r. apply IH. intros y Hy. apply Hsub. now right.
    + rewrite (Hkeep x (Hsub x (or_introl eq_refl)) Ex). simpl.
      f_equal. apply IH. intros y Hy. apply Hsub. now right.
  - intros o cs c Ho Hcs Hc. rewrite Hcalls in Ho. apply in_map_iff in Ho.
    destruct Ho as ([k a] & <- & He). unfold call_for in Hcs. simpl in Hcs.
    injection Hcs as <-. destruct Hc as [<- | []]. simpl. now apply (Hown k a).
  - intros f Hf. rewrite Hem in Hf. apply in_flat_map in Hf.
    destruct Hf as ([k a] & He & Hf). unfold emits in Hf.
    destruct (first_result purgeOptions rootDir (standard p') (k, a)); [| contradiction].
    destruct Hf as [<- | []]. simpl.
    pose proof He as He'. apply In_css_assets in He'. destruct He' as [Hka _].
    rewrite (Hname _ _ Hka). now apply (Hown k a).
Qed.

(** *** Safelist builder *)

Lemma purge_options_safelist (rootDir : string) (std : StringRegExpArray)
    (k text : string) :
  safelist (purge_options purgeOptions rootDir std k text) =
  Some (merged_safelist purgeOptions std).
Proof.
  unfold purge_options, merged_safelist, spread_safelist.
  destruct (chain purgeOptions safelist) as [sl |]; reflexivity.
Qed.

(** Every call of a pass carries the [standard] array as the pass leaves
    it. *)
Lemma generateBundle_calls (this : PluginContext) (p p' : Plugin)
    (b : OutputBundle) (out : Output) (o : Options) :
  generateBundle purgeOptions this p b = Ok (p', out) ->
  In o (calls out) ->
  safelist o = Some (merged_safelist purgeOptions (standard p')).
Proof.
  intros H Ho. apply generateBundle_Ok in H. destruct H as (_ & _ & _ & _ & Hloop).
  apply purge_loop_Ok in Hloop. destruct Hloop as (_ & Hcalls & _).
  rewrite Hcalls in Ho. simpl in Ho. apply in_map_iff in Ho.
  destruct Ho as (e & <- & _). apply purge_options_safelist.
Qed.

Lemma generateBundle_merged (this : PluginContext) (p p' : Plugin)
    (b : OutputBundle) (out : Output) :
  generateBundle purgeOptions this p b = Ok (p', out) ->
  merged purgeOptions p -> merged purgeOptions p'.
Proof.
  intros H (d & Hstd & Hd). apply generateBundle_Ok in H.
  destruct H as (Hscan & Hstd' & _).
  destruct (scan_modules_spec _ _ _ _ Hscan) as [[l El] _].
  exists (d ++ filter valid_token (selectors p')). split.
  - rewrite Hstd', Hstd. unfold merged_standard.
    now rewrite map_app, <- !app_assoc.
  - apply Forall_app. split.
    + eapply Forall_impl; [| exact Hd]. intros t [Ht Hv]. split; [| exact Hv].
      rewrite El. apply in_or_app. now left.
    + apply Forall_forall. intros t Ht. now apply filter_In in Ht.
Qed.

Lemma run_merged (hooks : list HookCall) :
  forall p outs p' outs',
    run purgeOptions hooks p outs = Ok (p', outs') ->
    merged purgeOptions p -> calls_merged purgeOptions outs ->
    merged purgeOptions p' /\ calls_merged purgeOptions outs'.
Proof.
  induction hooks as [| [id | config | this b] hooks IH];
    intros p outs p' outs' H Hp Houts; simpl in H.
  - injection H as <- <-. auto.
  - apply (IH _ _ _ _ H); [| exact Houts].
    unfold load. destruct (EXT_CSS_test id); exact Hp.
  - apply (IH _ _ _ _ H); [exact Hp | exact Houts].
  - destruct (generateBundle purgeOptions this p b) as [[p1 out1] | e] eqn:E;
      simpl in H; [| discriminate].
    pose proof (generateBundle_merged _ _ _ _ _ E Hp) as Hp1.
    apply (IH _ _ _ _ H); [exact Hp1 |].
    intros out o Hout Ho. apply in_app_or in Hout.
    destruct Hout as [Hout | [<- | []]]; [now apply (Houts out) |].
    destruct Hp1 as (d & Hstd & Hd). exists d. split.
    + rewrite (generateBundle_calls _ _ _ _ _ _ E Ho). now rewrite Hstd.
    + eapply Forall_impl; [| exact Hd]. now intros t [_ Hv].
Qed.

Lemma purgeCss_merged : merged purgeOptions (purgeCss purgeOptions).
Proof.
  exists []. split; [| constructor].
  unfold merged_standard. simpl. now rewrite app_nil_r.
Qed.

(** C9.  In any session on a fresh instance, the safelist of every engine
    call holds the user's standard entries as they were given, between the
    baseline and the discovered selectors, the user's greedy entries after
    [/svelte-/], and the user's other partitions unchanged; none of this
    depends on what the selector parser or the pattern compiler would make
    of a user entry. *)
Theorem user_safelist_verbatim (hooks : list HookCall) (p : Plugin)
    (outs : list Output) (out : Output) (o : Options) :
  run purgeOptions hooks (purgeCss purgeOptions) [] = Ok (p, outs) ->
  In out outs -> In o (calls out) ->
  exists sl discovered,
    safelist o = Some sl /\
    sl_standard sl =
      Some (baseline ++ nullish (chain (chain purgeOptions safelist) sl_standard) [] ++
            map Str discovered) /\
    sl_greedy sl =
      Some (Re "svelte-" :: nullish (chain (chain purgeOptions safelist) sl_greedy) []) /\
    sl_deep sl = chain (chain purgeOptions safelist) sl_deep /\
    sl_variables sl = chain (chain purgeOptions safelist) sl_variables /\
    sl_keyframes sl = chain (chain purgeOptions safelist) sl_keyframes.
Proof.
  intros H Hout Ho. apply run_merged in H; [| apply purgeCss_merged | intros ? ? []].
  destruct H as [_ Houts]. destruct (Houts out o Hout Ho) as (d & Hsl & _).
  exists (merged_safelist purgeOptions (merged_standard purgeOptions d)), d.
  split; [exact Hsl |]. repeat split; reflexivity.
Qed.

Lemma count_occ_Str_filter (sels : list string) (t : string) :
  In t sels -> valid_token t = true ->
  1 <= count_occ StringRegExp_eq_dec (map Str (filter valid_token sels)) (Str t).
Proof.
  intros Hin Hv. apply count_occ_In. apply in_map. apply filter_In. auto.
Qed.

(** C10.  The cells outlive a pass.  When [generateBundle] returns twice on
    one instance, the second pass starts from the candidates and the array
    the first one left: the candidates of the first pass are still
    candidates, the array is the original one followed by the validated
    candidates of the first pass and then those of the second, so a
    selector validated in the first pass occurs at least twice, and this
    array is what the engine calls of the second pass receive. *)
Theorem second_pass_appends_again (this1 this2 : PluginContext) (p p1 p2 : Plugin)
    (b1 b2 : OutputBundle) (out1 out2 : Output) :
  generateBundle purgeOptions this1 p b1 = Ok (p1, out1) ->
  generateBundle purgeOptions this2 p1 b2 = Ok (p2, out2) ->
  (exists more, selectors p2 = selectors p1 ++ more)
  /\ standard p2 =
       standard p ++ map Str (filter valid_token (selectors p1)) ++
       map Str (filter valid_token (selectors p2))
  /\ (forall t, In t (selectors p1) -> valid_token t = true ->
        2 <= count_occ StringRegExp_eq_dec (standard p2) (Str t))
  /\ (forall o, In o (calls out2) ->
        chain (safelist o) sl_standard = Some (standard p2)).
Proof.
  intros H1 H2. pose proof (fun o => generateBundle_calls _ _ _ _ _ o H2) as Hcalls.
  apply generateBundle_Ok in H1. destruct H1 as (_ & Hstd1 & _).
  apply generateBundle_Ok in H2. destruct H2 as (Hscan2 & Hstd2 & _).
  destruct (scan_modules_spec _ _ _ _ Hscan2) as [[more Emore] _].
  assert (Hstd : standard p2 =
                 standard p ++ map Str (filter valid_token (selectors p1)) ++
                 map Str (filter valid_token (selectors p2))).
  { now rewrite Hstd2, Hstd1, <- app_assoc. }
  split; [now exists more |]. split; [exact Hstd |]. split.
  - intros t Ht Hv. rewrite Hstd, !count_occ_app.
    pose proof (count_occ_Str_filter (selectors p1) t Ht Hv).
    assert (Ht2 : In t (selectors p2)) by (rewrite Emore; apply in_or_app; now left).
    pose proof (count_occ_Str_filter (selectors p2) t Ht2 Hv). lia.
  - intros o Ho. now rewrite (Hcalls o Ho).
Qed.

(** *** When a pass returns *)

Lemma scan_modules_return (this : PluginContext) (ids : list string) :
  (forall id text, In id ids -> scanned_text this id = Some text ->
                   exists ast, parse this text = Ok ast) ->
  forall s, exists s', for_of (scan_module purgeOptions this) ids s = Ok s'.
Proof.
  induction ids as [| id ids IH]; intros Hparse s; simpl.
  - now exists s.
  - rewrite scan_module_scanned_text.
    assert (Hrest : forall id' text, In id' ids -> scanned_text this id' = Some text ->
                                     exists ast, parse this text = Ok ast).
    { intros id' text Hin. apply Hparse. now right. }
    destruct (scanned_text this id) as [text |] eqn:E; simpl.
    + destruct (Hparse id text (or_introl eq_refl) E) as [ast ->]. simpl.
      now apply IH.
    + now apply IH.
Qed.

Lemma purge_loop_returns (config : ResolvedConfig) (std : StringRegExpArray)
    (l : list (string * Asset)) :
  (forall k a, In (k, a) l -> exists text, source a = Text text) ->
  (forall o, exists results, purge o = Ok results) ->
  forall out0, exists out, for_of (purge_asset purgeOptions (Some config) std) l out0 = Ok out.
Proof.
  intros Htext Hpurge. induction l as [| [k a] l IH]; intros out0; simpl.
  - now exists out0.
  - destruct (Htext k a (or_introl eq_refl)) as [text ->]. simpl.
    destruct (Hpurge (purge_options purgeOptions (root config) std k text))
      as [[| first rest] ->]; simpl; apply IH; intros k' a' Hin;
      apply (Htext k' a'); now right.
Qed.

(** A pass returns when the host has resolved the configuration, every
    scanned module parses, every stylesheet asset holds text and the
    engine returns; the outcome of validating a token plays no part. *)
Lemma generateBundle_returns (this : PluginContext) (p : Plugin) (b : OutputBundle)
    (config : ResolvedConfig) :
  viteConfig p = Some config ->
  (forall id text, In id (moduleIds p) -> scanned_text this id = Some text ->
                   exists ast, parse this text = Ok ast) ->
  (forall k a, In (k, IsAsset a) b -> EXT_CSS_test k = true ->
               exists text, source a = Text text) ->
  (forall o, exists results, purge o = Ok results) ->
  exists p' out, generateBundle purgeOptions this p b = Ok (p', out).
Proof.
  intros Hcfg Hparse Htext Hpurge. rewrite generateBundle_pipeline, Hcfg.
  destruct (scan_modules_return this (moduleIds p) Hparse (selectors p)) as [sels ->].
  simpl.
  destruct (purge_loop_returns config
              (standard p ++ map Str (filter valid_token sels)) (collect_assets b))
    with (out0 := {| bundle := b; emitted := []; calls := [] |}) as [out ->].
  - intros k a Hin. apply In_collect_assets in Hin. destruct Hin as [Hin Hext].
    now apply (Htext k a).
  - exact Hpurge.
  - simpl. eauto.
Qed.

End Properties.

(** * The properties on the small build *)

Lemma demo_first_pass :
  generateBundle (ext := Demo.ext) Demo.userOptions Demo.this Demo.ready Demo.bundle =
  Ok (Demo.after_first, Demo.out_first).
Proof. reflexivity. Qed.

Lemma demo_second_pass :
  generateBundle (ext := Demo.ext) Demo.userOptions Demo.this Demo.after_first Demo.bundle =
  Ok (Demo.after_second, Demo.out_second).
Proof. reflexivity. Qed.

Lemma demo_session :
  run (ext := Demo.ext) Demo.userOptions Demo.hooks (purgeCss Demo.userOptions) [] =
  Ok (Demo.after_first, [Demo.out_first]).
Proof. reflexivity. Qed.

Lemma demo_host_bundle : host_bundle Demo.bundle.
Proof.
  split.
  - unfold keys. simpl. repeat constructor; simpl; intuition discriminate.
  - intros k a H. simpl in H.
    repeat (destruct H as [H | H]; [inversion H; reflexivity |]). contradiction.
Qed.

(** The candidates and the array after the first pass: [(raw] fails the
    selector parser and [*] the pattern compiler, so neither is pushed; the
    user's [((bad] is there although the parser rejects it. *)
Example demo_selectors :
  selectors Demo.after_first =
  ["cls"; "btn"; "btn-primary"; "item-"; "id"; "(raw"; "*"; "html"].
Proof. reflexivity. Qed.

Example demo_standard :
  standard Demo.after_first =
  [ Str "*"; Str "html"; Str "body"; Re "aria-current"; Re "svelte-"; Re "^\:[-a-z]+$";
    Str "((bad"; Re "^keep-";
    Str "cls"; Str "btn"; Str "btn-primary"; Str "item-"; Str "id"; Str "html" ].
Proof. reflexivity. Qed.

Example demo_bundle_after :
  keys (bundle Demo.out_first) = ["index.js"; "logo.svg"; "empty.css"] /\
  map fileName (emitted Demo.out_first) = ["assets/style.css"] /\
  List.length (calls Demo.out_first) = 2.
Proof. repeat split; reflexivity. Qed.

(** A module whose tree does not parse stops the pass, a rejected token
    does not. *)
Example demo_parse_failure :
  generateBundle (ext := Demo.ext) None
    {| getModuleInfo := fun _ => Some {| isIncluded := Some true; code := Some "?" |};
       parse := parse Demo.this |}
    (load (purgeCss None) "x.js") [] =
  Throw (Error "SyntaxError" "Unexpected token").
Proof. reflexivity. Qed.


Lemma skipped_modules_contribute_nothing_witness :
  skipped Demo.this "src/dead.js" /\
  for_of (scan_module (ext := Demo.ext) Demo.userOptions Demo.this)
    (remove string_dec "src/dead.js" (moduleIds Demo.ready)) (selectors Demo.ready) =
  Ok (selectors Demo.after_first).
Proof.
  assert (Hskip : skipped Demo.this "src/dead.js") by (left; discriminate).
  split; [exact Hskip |].
  exact (proj1 (proj2 (skipped_modules_contribute_nothing (ext := Demo.ext)
                         Demo.userOptions Demo.this Demo.ready Demo.after_first
                         Demo.bundle Demo.out_first "src/dead.js"
                         demo_first_pass Hskip))).
Defined.

Lemma engine_call_options_witness :
  In Demo.first_call (calls Demo.out_first) /\
  exists k a config text,
    In (k, IsAsset a) Demo.bundle /\ EXT_CSS_test k = true /\
    viteConfig Demo.ready = Some config /\ source a = Text text /\
    (host_bundle Demo.bundle -> k = fileName a) /\
    css Demo.first_call =
      Some [ {| raw := trim (Externals := Demo.ext) text; name := k |} ] /\
    rejected Demo.first_call = Some true /\ rejectedCss Demo.first_call = Some true /\
    content Demo.first_call =
      Some (Glob (join (Externals := Demo.ext) (root config) "**/*.html") ::
            nullish (chain Demo.userOptions content) []).
Proof.
  assert (Hin : In Demo.first_call (calls Demo.out_first)) by (left; reflexivity).
  split; [exact Hin |].
  exact (engine_call_options (ext := Demo.ext) Demo.userOptions Demo.this Demo.ready
           Demo.after_first Demo.bundle Demo.out_first Demo.first_call
           demo_first_pass Hin).
Defined.

Lemma css_asset_replaced_or_kept_witness :
  host_bundle Demo.bundle /\
  In ("assets/style.css", IsAsset Demo.style) Demo.bundle /\
  exists config text results,
    viteConfig Demo.ready = Some config /\ source Demo.style = Text text /\
    In (purge_options (ext := Demo.ext) Demo.userOptions (root config)
          (standard Demo.after_first) "assets/style.css" text) (calls Demo.out_first) /\
    purge (Externals := Demo.ext)
      (purge_options (ext := Demo.ext) Demo.userOptions (root config)
         (standard Demo.after_first) "assets/style.css" text) = Ok results /\
    match results with
    | first :: _ =>
        ~ In "assets/style.css" (keys (bundle Demo.out_first)) /\
        In {| fileName := fileName Demo.style; assetName := assetName Demo.style;
              needsCodeReference := needsCodeReference Demo.style;
              source := Text (rp_css first) |} (emitted Demo.out_first)
    | [] =>
        In ("assets/style.css", IsAsset Demo.style) (bundle Demo.out_first) /\
        forall f, In f (emitted Demo.out_first) -> fileName f <> "assets/style.css"
    end.
Proof.
  assert (Hin : In ("assets/style.css", IsAsset Demo.style) Demo.bundle)
    by (right; left; reflexivity).
  split; [exact demo_host_bundle |]. split; [exact Hin |].
  exact (css_asset_replaced_or_kept (ext := Demo.ext) Demo.userOptions Demo.this
           Demo.ready Demo.after_first Demo.bundle Demo.out_first
           "assets/style.css" Demo.style
           demo_host_bundle demo_first_pass Hin eq_refl).
Defined.

Lemma other_entries_untouched_witness :
  host_bundle Demo.bundle /\
  In ("logo.svg", IsAsset Demo.logo) Demo.bundle /\
  is_css_asset ("logo.svg", IsAsset Demo.logo) = false /\
  In ("logo.svg", IsAsset Demo.logo) (bundle Demo.out_first).
Proof.
  assert (Hin : In ("logo.svg", IsAsset Demo.logo) Demo.bundle)
    by (right; right; left; reflexivity).
  split; [exact demo_host_bundle |]. split; [exact Hin |]. split; [reflexivity |].
  exact (proj1 (other_entries_untouched (ext := Demo.ext) Demo.userOptions Demo.this
                  Demo.ready Demo.after_first Demo.bundle Demo.out_first
                  ("logo.svg", IsAsset Demo.logo)
                  demo_host_bundle demo_first_pass Hin eq_refl)).
Defined.

Lemma user_safelist_verbatim_witness :
  In Demo.out_first [Demo.out_first] /\ In Demo.first_call (calls Demo.out_first) /\
  returns (css_what_parse (Externals := Demo.ext) "((bad") = false /\
  exists sl discovered,
    safelist Demo.first_call = Some sl /\
    sl_standard sl =
      Some (baseline ++ [Str "((bad"; Re "^keep-"] ++ map Str discovered) /\
    sl_greedy sl = Some [Re "svelte-"; Re "modal"] /\
    sl_deep sl = Some ["deep$"] /\
    sl_variables sl = None /\
    sl_keyframes sl = None.
Proof.
  assert (Hout : In Demo.out_first [Demo.out_first]) by (left; reflexivity).
  assert (Hin : In Demo.first_call (calls Demo.out_first)) by (left; reflexivity).
  split; [exact Hout |]. split; [exact Hin |]. split; [reflexivity |].
  exact (user_safelist_verbatim (ext := Demo.ext) Demo.userOptions Demo.hooks
           Demo.after_first [Demo.out_first] Demo.out_first Demo.first_call
           demo_session Hout Hin).
Defined.

Lemma second_pass_appends_again_witness :
  In "btn" (selectors Demo.after_first) /\
  valid_token (ext := Demo.ext) "btn" = true /\
  2 <= count_occ StringRegExp_eq_dec (standard Demo.after_second) (Str "btn").
Proof.
  assert (Hin : In "btn" (selectors Demo.after_first)) by (right; left; reflexivity).
  split; [exact Hin |]. split; [reflexivity |].
  exact (proj1 (proj2 (proj2 (second_pass_appends_again (ext := Demo.ext)
                                Demo.userOptions Demo.this Demo.this Demo.ready
                                Demo.after_first Demo.after_second
                                Demo.bundle Demo.bundle Demo.out_first Demo.out_second
                                demo_first_pass demo_second_pass)))
           "btn" Hin eq_refl).
Defined.


(** * Further properties of the hooks *)

(** ** The stylesheet test *)

(** [EXT_CSS] accepts exactly the strings that end in [.css]. *)
Theorem EXT_CSS_test_suffix (s : string) :
  EXT_CSS_test s = true <-> exists prefix, s = (prefix ++ ".css")%string.
Proof.
  split.
  - induction s as [| c s IH].
    + discriminate.
    + cbn [EXT_CSS_test]. intros H. apply orb_true_iff in H. destruct H as [H | H].
      * apply String.eqb_eq in H. exists ""%string. exact H.
      * destruct (IH H) as [prefix ->]. now exists (String c prefix).
  - intros [prefix ->]. induction prefix as [| c prefix IH].
    + reflexivity.
    + cbn [append EXT_CSS_test]. rewrite IH. apply orb_true_r.
Qed.

(** ** Sessions *)

Lemma NoDup_add (x : string) (s : StringSet) : NoDup s -> NoDup (add x s).
Proof.
  intros Hs. unfold add. destruct (has x s) eqn:E; [exact Hs |].
  apply NoDup_app; [exact Hs | repeat constructor; intros [] |].
  intros y Hy [<- | []]. apply has_In in Hy. congruence.
Qed.

Lemma NoDup_add_each (xs : list string) :
  forall s, NoDup s -> NoDup (add_each xs s).
Proof.
  unfold add_each. induction xs as [| x xs IH]; intros s Hs; simpl.
  - exact Hs.
  - apply IH. now apply NoDup_add.
Qed.

Section Further.

Context {ext : Externals}.
Variable purgeOptions : option PurgeOptions.

Lemma NoDup_walk (ast : Node) (s : StringSet) :
  NoDup s -> NoDup (walk (enter purgeOptions) ast s).
Proof.
  rewrite walk_nodes_of. generalize (nodes_of ast). intros nodes. revert s.
  induction nodes as [| n nodes IH]; intros s Hs; simpl; [exact Hs |].
  apply IH. rewrite enter_candidate_text.
  destruct (candidate_text n); [now apply NoDup_add_each | exact Hs].
Qed.

Lemma NoDup_scan (this : PluginContext) (ids : list string) :
  forall s s', for_of (scan_module purgeOptions this) ids s = Ok s' ->
               NoDup s -> NoDup s'.
Proof.
  induction ids as [| id ids IH]; intros s s' H Hs; simpl in H.
  - now injection H as <-.
  - rewrite scan_module_scanned_text in H.
    destruct (scanned_text this id) as [text |]; simpl in H; [| now apply (IH s)].
    destruct (parse this text) as [ast | e]; simpl in H; [| discriminate].
    apply (IH _ _ H). now apply NoDup_walk.
Qed.

Lemma run_tracks (id : string) (hooks : list HookCall) :
  forall p0 outs0 p outs,
    run purgeOptions hooks p0 outs0 = Ok (p, outs) ->
    NoDup (moduleIds p0) -> NoDup (selectors p0) ->
    (In id (moduleIds p) <->
     In id (moduleIds p0) \/ (In (Load id) hooks /\ EXT_CSS_test id = false))
    /\ NoDup (moduleIds p) /\ NoDup (selectors p).
Proof.
  induction hooks as [| [id' | config | this b] hooks IH];
    intros p0 outs0 p outs H Hm Hs; simpl in H.
  - injection H as <- <-. split; [| auto]. split; [now left |].
    intros [H | [[] _]]. exact H.
  - destruct (IH _ _ _ _ H) as (Hin & Hm' & Hs').
    + unfold load. destruct (EXT_CSS_test id'); [exact Hm | now apply NoDup_add].
    + unfold load. destruct (EXT_CSS_test id'); exact Hs.
    + split; [| auto]. rewrite Hin. unfold load.
      destruct (EXT_CSS_test id') eqn:E; simpl.
      * split.
        -- intros [H1 | [H1 H2]]; [now left | right; split; [now right | exact H2]].
        -- intros [H1 | [[H1 | H1] H2]]; [now left | | right; now split].
           injection H1 as ->. congruence.
      * rewrite In_add. split.
        -- intros [[-> | H1] | [H1 H2]];
             [right; split; [now left | exact E] | now left |
              right; split; [now right | exact H2]].
        -- intros [H1 | [[H1 | H1] H2]];
             [left; now right | injection H1 as ->; left; now left | right; now split].
  - destruct (IH _ _ _ _ H Hm Hs) as (Hin & Hm' & Hs').
    split; [| auto]. rewrite Hin. simpl. split.
    + intros [H1 | [H1 H2]]; [now left | right; split; [now right | exact H2]].
    + intros [H1 | [[H1 | H1] H2]]; [now left | discriminate | right; now split].
  - destruct (generateBundle purgeOptions this p0 b) as [[p1 out1] | e] eqn:E;
      simpl in H; [| discriminate].
    apply generateBundle_Ok in E. destruct E as (Hscan & _ & _ & Hids & _).
    destruct (IH _ _ _ _ H) as (Hin & Hm' & Hs').
    + now rewrite Hids.
    + now apply (NoDup_scan _ _ _ _ Hscan).
    + split; [| auto]. rewrite Hin, Hids. split.
      * intros [H1 | [H1 H2]]; [now left | right; split; [now right | exact H2]].
      * intros [H1 | [[H1 | H1] H2]]; [now left | discriminate | right; now split].
Qed.

(** The modules a session tracks are exactly the ids handed to [load] that
    do not end in [.css], each once; the candidate set holds no token
    twice. *)
Theorem session_tracks_loaded_modules (hooks : list HookCall) (p : Plugin)
    (outs : list Output) (id : string) :
  run purgeOptions hooks (purgeCss purgeOptions) [] = Ok (p, outs) ->
  (In id (moduleIds p) <-> In (Load id) hooks /\ EXT_CSS_test id = false)
  /\ NoDup (moduleIds p) /\ NoDup (selectors p).
Proof.
  intros H.
  assert (Hm0 : NoDup (moduleIds (purgeCss purgeOptions))) by constructor.
  assert (Hs0 : NoDup (selectors (purgeCss purgeOptions))) by constructor.
  destruct (run_tracks id _ _ _ _ _ H Hm0 Hs0) as (Hin & Hm & Hs).
  split; [| auto]. rewrite Hin. simpl. tauto.
Qed.

(** A pass that starts from a duplicate-free candidate set pushes no
    selector twice. *)
Theorem pass_appends_distinct (this : PluginContext) (p p' : Plugin)
    (b : OutputBundle) (out : Output) :
  generateBundle purgeOptions this p b = Ok (p', out) ->
  NoDup (selectors p) ->
  exists added,
    standard p' = standard p ++ map Str added /\ NoDup added /\
    (forall t, In t added <-> In t (selectors p') /\ valid_token t = true).
Proof.
  intros H Hs. apply generateBundle_Ok in H. destruct H as (Hscan & Hstd & _).
  exists (filter valid_token (selectors p')). split; [exact Hstd |]. split.
  - apply NoDup_filter. now apply (NoDup_scan _ _ _ _ Hscan).
  - intros t. apply filter_In.
Qed.

(** ** Passes that throw, and passes with nothing to do *)

Lemma scan_modules_first_throw (this : PluginContext) (ids : list string) :
  forall s,
    (exists id text e,
        In id ids /\ scanned_text this id = Some text /\ parse this text = Throw e) ->
    exists e' before id' after text',
      for_of (scan_module purgeOptions this) ids s = Throw e' /\
      ids = before ++ id' :: after /\
      scanned_text this id' = Some text' /\ parse this text' = Throw e' /\
      forall id0 text0, In id0 before -> scanned_text this id0 = Some text0 ->
                        exists ast, parse this text0 = Ok ast.
Proof.
  induction ids as [| id0 ids IH]; intros s (id & text & e & Hin & Ht & Hp).
  - contradiction.
  - simpl. rewrite scan_module_scanned_text.
    assert (Htail : id <> id0 ->
              exists id1 text1 e1,
                In id1 ids /\ scanned_text this id1 = Some text1 /\
                parse this text1 = Throw e1).
    { intros Hne. destruct Hin as [-> | Hin]; [congruence |]. now exists id, text, e. }
    destruct (scanned_text this id0) as [text0 |] eqn:E0; simpl.
    + destruct (parse this text0) as [ast | e0] eqn:Ep; simpl.
      * assert (Hne : id <> id0) by (intros ->; congruence).
        destruct (IH (walk (enter purgeOptions) ast s) (Htail Hne))
          as (e' & before & id' & after & text' & H1 & -> & H3 & H4 & H5).
        exists e', (id0 :: before), id', after, text'.
        split; [exact H1 | split; [reflexivity | split; [exact H3 | split; [exact H4 |]]]].
        intros id1 text1 [<- | Hin1] Ht1; [| now apply (H5 id1)].
        rewrite E0 in Ht1. injection Ht1 as <-. now exists ast.
      * exists e0, [], id0, ids, text0.
        split; [reflexivity | split; [reflexivity | split; [exact E0 | split; [exact Ep |]]]].
        intros id1 text1 [].
    + assert (Hne : id <> id0) by (intros ->; congruence).
      destruct (IH s (Htail Hne))
        as (e' & before & id' & after & text' & H1 & -> & H3 & H4 & H5).
      exists e', (id0 :: before), id', after, text'.
      split; [exact H1 | split; [reflexivity | split; [exact H3 | split; [exact H4 |]]]].
      intros id1 text1 [<- | Hin1] Ht1; [congruence | now apply (H5 id1)].
Qed.

(** A tracked module that is included and has code which the host cannot
    parse makes the pass throw.  The exception is the parser's for the
    first such module in tracking order: every module tracked before it is
    skipped or parses. *)
Theorem unparsable_module_aborts (this : PluginContext) (p : Plugin) (b : OutputBundle)
    (id : string) (info : ModuleInfo) (text : string) (e : Exn) :
  In id (moduleIds p) ->
  getModuleInfo this id = Some info -> isIncluded info = Some true ->
  code info = Some text -> parse this text = Throw e ->
  exists e' before id' after info' text',
    generateBundle purgeOptions this p b = Throw e' /\
    moduleIds p = before ++ id' :: after /\
    getModuleInfo this id' = Some info' /\ isIncluded info' = Some true /\
    code info' = Some text' /\ parse this text' = Throw e' /\
    forall id0 info0 text0,
      In id0 before -> getModuleInfo this id0 = Some info0 ->
      isIncluded info0 = Some true -> code info0 = Some text0 ->
      exists ast, parse this text0 = Ok ast.
Proof.
  intros Hin Hinfo Hinc Hcode Hp.
  destruct (scan_modules_first_throw this (moduleIds p) (selectors p))
    as (e' & before & id' & after & text' & Hscan & Hsplit & Ht' & Hp' & Hbefore).
  { exists id, text, e. split; [exact Hin | split; [| exact Hp]].
    unfold scanned_text. now rewrite Hinfo, Hinc. }
  unfold scanned_text in Ht'.
  destruct (getModuleInfo this id') as [info' |] eqn:Einfo'; [| discriminate].
  destruct (isIncluded info') as [[|] |] eqn:Einc'; try discriminate.
  exists e', before, id', after, info', text'.
  split; [rewrite generateBundle_pipeline, Hscan; reflexivity |].
  repeat split; try assumption; try reflexivity.
  intros id0 info0 text0 Hin0 Hi0 Hinc0 Hc0. apply (Hbefore id0 text0 Hin0).
  unfold scanned_text. now rewrite Hi0, Hinc0.
Qed.

Lemma collect_assets_nil (b : OutputBundle) :
  (forall kv, In kv b -> is_css_asset kv = false) -> collect_assets b = [].
Proof.
  intros Hb. destruct (collect_assets b) as [| [k a] l] eqn:E; [reflexivity |].
  assert (Hin : In (k, a) (collect_assets b)) by (rewrite E; now left).
  apply In_collect_assets in Hin. destruct Hin as [Hin Hext].
  specialize (Hb _ Hin). unfold is_css_asset in Hb. simpl in Hb. congruence.
Qed.

(** On a bundle without stylesheet assets the pass only scans and
    validates: it returns whenever the scan does, with the bundle as it
    was, no engine call and no emitted file, even when the configuration
    was never resolved. *)
Theorem pass_without_stylesheets (this : PluginContext) (p : Plugin) (b : OutputBundle) :
  (forall kv, In kv b -> is_css_asset kv = false) ->
  generateBundle purgeOptions this p b =
  (sels <- for_of (scan_module purgeOptions this) (moduleIds p) (selectors p) ;;
   Ok ({| viteConfig := viteConfig p;
          selectors := sels;
          standard := standard p ++ map Str (filter valid_token sels);
          moduleIds := moduleIds p |},
       {| bundle := b; emitted := []; calls := [] |})).
Proof.
  intros Hb. rewrite generateBundle_pipeline, (collect_assets_nil b Hb). reflexivity.
Qed.

Lemma collect_assets_cons (b : OutputBundle) (k : string) (a : Asset) :
  In (k, IsAsset a) b -> EXT_CSS_test k = true ->
  exists entry rest, collect_assets b = entry :: rest.
Proof.
  intros Hin Hext. unfold collect_assets.
  match goal with |- context [fold_left ?f b []] => set (step := f) end.
  enough (G : forall acc,
             acc <> [] \/ In (k, IsAsset a) b -> fold_left step b acc <> []).
  { specialize (G [] (or_intror Hin)).
    destruct (fold_left step b []) as [| entry rest]; [congruence | now exists entry, rest]. }
  assert (Hset : forall k' a' (o : Obj Asset), Js.set k' a' o <> []).
  { intros k' a' [| [k2 a2] o]; simpl; [| destruct (String.eqb k' k2)]; discriminate. }
  clear Hin. induction b as [| [k' [a' | c]] b IH]; intros acc H; simpl.
  - destruct H as [H | []]. exact H.
  - apply IH. destruct H as [H | [H | H]].
    + left. destruct (EXT_CSS_test k'); [apply Hset | exact H].
    + injection H as -> ->. left. rewrite Hext. apply Hset.
    + now right.
  - apply IH. destruct H as [H | [H | H]]; [now left | discriminate | now right].
Qed.

(** When [configResolved] was never called and the bundle holds a
    stylesheet asset, a pass whose scan returns throws a [TypeError]. *)
Theorem unconfigured_pass_throws (this : PluginContext) (p : Plugin) (b : OutputBundle)
    (sels : StringSet) (k : string) (a : Asset) :
  viteConfig p = None ->
  for_of (scan_module purgeOptions this) (moduleIds p) (selectors p) = Ok sels ->
  In (k, IsAsset a) b -> EXT_CSS_test k = true ->
  exists message,
    generateBundle purgeOptions this p b = Throw (Error "TypeError" message).
Proof.
  intros Hcfg Hscan Hin Hext.
  destruct (collect_assets_cons b k a Hin Hext) as ([k0 a0] & rest & E).
  rewrite generateBundle_pipeline, Hscan, Hcfg, E. simpl. eauto.
Qed.

(** A stylesheet asset whose source is a byte array keeps the pass from
    returning. *)
Theorem binary_stylesheet_aborts (this : PluginContext) (p : Plugin) (b : OutputBundle)
    (k : string) (a : Asset) (bytes : list ascii) :
  NoDup (keys b) ->
  In (k, IsAsset a) b -> EXT_CSS_test k = true -> source a = Bytes bytes ->
  exists e, generateBundle purgeOptions this p b = Throw e.
Proof.
  intros Hnd Hin Hext Hsrc.
  destruct (generateBundle purgeOptions this p b) as [[p' out] | e] eqn:E;
    [| now exists e].
  apply generateBundle_Ok in E. destruct E as (_ & _ & _ & _ & Hloop).
  rewrite (collect_assets_css_assets b Hnd) in Hloop.
  apply purge_loop_Ok in Hloop. destruct Hloop as (Hall & _).
  rewrite Forall_forall in Hall.
  destruct (Hall (k, a)) as (config & text & results & _ & Htext & _).
  - apply In_css_assets. auto.
  - simpl in Htext. congruence.
Qed.

(** ** What a returning pass leaves *)

(** One engine call is made for each stylesheet asset, in bundle order. *)
Theorem one_call_per_stylesheet (this : PluginContext) (p p' : Plugin)
    (b : OutputBundle) (out : Output) :
  NoDup (keys b) ->
  generateBundle purgeOptions this p b = Ok (p', out) ->
  flat_map css_names (calls out) = keys (css_assets b) /\
  List.length (calls out) = List.length (css_assets b).
Proof.
  intros Hnd H. apply generateBundle_Ok in H. destruct H as (_ & _ & _ & _ & Hloop).
  rewrite (collect_assets_css_assets b Hnd) in Hloop.
  apply purge_loop_Ok in Hloop. destruct Hloop as (_ & Hcalls & _).
  simpl in Hcalls. rewrite Hcalls. split; [| apply length_map].
  clear Hcalls. unfold keys. induction (css_assets b) as [| [k a] l IH]; [reflexivity |].
  cbn [map flat_map]. rewrite IH. reflexivity.
Qed.

Lemma emitted_names (rootDir : string) (std : StringRegExpArray) (l : OutputBundle) :
  (forall k a, In (k, IsAsset a) l -> fileName a = k) ->
  map fileName (flat_map (emits purgeOptions rootDir std) (css_assets l)) =
  keys (filter (purged purgeOptions rootDir std) l).
Proof.
  induction l as [| [k [a | c]] l IH]; intros Hname; simpl.
  - reflexivity.
  - assert (Hl : forall k' a', In (k', IsAsset a') l -> fileName a' = k').
    { intros k' a' H. apply Hname. now right. }
    unfold purged at 1. simpl. destruct (EXT_CSS_test k); simpl.
    + unfold emits at 1. simpl.
      destruct (first_result purgeOptions rootDir std (k, a)); simpl.
      * rewrite (Hname k a (or_introl eq_refl)). f_equal. now apply IH.
      * now apply IH.
    + now apply IH.
  - apply IH. intros k' a' H. apply Hname. now right.
Qed.

Lemma deleted_entries (rootDir : string) (std : StringRegExpArray) (b : OutputBundle)
    (kv : string * ChunkOrAsset) :
  host_bundle b -> In kv b ->
  forallb (fun e => negb (replaces purgeOptions rootDir std e kv)) (css_assets b) =
  negb (purged purgeOptions rootDir std kv).
Proof.
  intros Hhost Hkv. pose proof Hhost as [_ Hname].
  destruct (purged purgeOptions rootDir std kv) eqn:Ep; simpl.
  - destruct kv as [k [a | c]]; unfold purged in Ep; simpl in Ep; [| discriminate].
    apply andb_true_iff in Ep. destruct Ep as [Hext Hres].
    destruct (forallb _ (css_assets b)) eqn:Ef; [| reflexivity].
    rewrite forallb_forall in Ef.
    assert (He : In (k, a) (css_assets b)) by (apply In_css_assets; auto).
    specialize (Ef _ He). unfold replaces in Ef. simpl in Ef.
    rewrite Hres, (Hname _ _ Hkv), String.eqb_refl in Ef. discriminate.
  - apply forallb_forall. intros e He. apply negb_true_iff.
    destruct (replaces purgeOptions rootDir std e kv) eqn:Er; [| reflexivity].
    pose proof (replaces_own_entry _ _ _ _ _ _ Hhost He Hkv Er) as ->.
    destruct e as [k a]. apply In_css_assets in He. destruct He as [_ Hext].
    unfold replaces in Er. apply andb_true_iff in Er. destruct Er as [Hres _].
    unfold purged in Ep. simpl in *. rewrite Hext, Hres in Ep. discriminate.
Qed.

(** On a bundle in the host's shape a returning pass loses no file and
    adds none: the bundle keeps, in order, the entries it does not replace,
    the emitted files carry, in order, the names of the replaced entries,
    and together they are as many as the entries before. *)
Theorem files_conserved (this : PluginContext) (p p' : Plugin)
    (b : OutputBundle) (out : Output) :
  host_bundle b ->
  generateBundle purgeOptions this p b = Ok (p', out) ->
  bundle out =
    filter (fun kv => negb (purged purgeOptions (root_of (viteConfig p)) (standard p') kv)) b
  /\ map fileName (emitted out) =
       keys (filter (purged purgeOptions (root_of (viteConfig p)) (standard p')) b)
  /\ List.length (bundle out) + List.length (emitted out) = List.length b.
Proof.
  intros Hhost H. pose proof Hhost as [Hnd Hname].
  apply generateBundle_Ok in H. destruct H as (_ & _ & _ & _ & Hloop).
  rewrite (collect_assets_css_assets b Hnd) in Hloop.
  apply purge_loop_Ok in Hloop. destruct Hloop as (_ & _ & Hem & Hb).
  simpl in Hem, Hb.
  assert (Hb' : bundle out =
                filter (fun kv => negb (purged purgeOptions (root_of (viteConfig p))
                                          (standard p') kv)) b).
  { rewrite Hb. apply filter_ext_in. intros kv Hkv. now apply deleted_entries. }
  assert (Hem' : map fileName (emitted out) =
                 keys (filter (purged purgeOptions (root_of (viteConfig p))
                                 (standard p')) b)).
  { rewrite Hem. now apply emitted_names. }
  split; [exact Hb' | split; [exact Hem' |]].
  rewrite <- (length_map fileName (emitted out)), Hem', Hb'.
  unfold keys. rewrite length_map, Nat.add_comm. apply filter_length.
Qed.

(** Every option of the user that the plugin does not set itself reaches
    each engine call as it was given. *)
Theorem options_passed_through (this : PluginContext) (p p' : Plugin)
    (b : OutputBundle) (out : Output) (o : Options) :
  generateBundle purgeOptions this p b = Ok (p', out) ->
  In o (calls out) ->
  defaultExtractor o = chain purgeOptions defaultExtractor /\
  fontFace o = chain purgeOptions fontFace /\
  keyframes o = chain purgeOptions keyframes /\
  variables o = chain purgeOptions variables /\
  output o = chain purgeOptions output /\
  blocklist o = chain purgeOptions blocklist /\
  skippedContentGlobs o = chain purgeOptions skippedContentGlobs /\
  dynamicAttributes o = chain purgeOptions dynamicAttributes.
Proof.
  intros H Ho. apply generateBundle_Ok in H. destruct H as (_ & _ & _ & _ & Hloop).
  apply purge_loop_Ok in Hloop. destruct Hloop as (_ & Hcalls & _).
  rewrite Hcalls in Ho. simpl in Ho. apply in_map_iff in Ho.
  destruct Ho as (e & <- & _). unfold call_for, purge_options, spread_options.
  destruct purgeOptions as [opts |]; simpl; repeat split; reflexivity.
Qed.

(** ** A second pass over the same modules *)

Lemma add_present (x : string) (s : StringSet) : In x s -> add x s = s.
Proof. intros H. unfold add. apply has_In in H. now rewrite H. Qed.

Lemma add_each_present (xs : list string) (s : StringSet) :
  (forall x, In x xs -> In x s) -> add_each xs s = s.
Proof.
  unfold add_each. induction xs as [| x xs IH]; intros H; simpl; [reflexivity |].
  rewrite add_present by (apply H; now left). apply IH. intros y Hy. apply H. now right.
Qed.

Lemma walk_present (ast : Node) (s : StringSet) :
  (forall tok, token_of_tree purgeOptions ast tok -> In tok s) ->
  walk (enter purgeOptions) ast s = s.
Proof.
  unfold token_of_tree. rewrite walk_nodes_of. generalize (nodes_of ast).
  intros nodes. induction nodes as [| n nodes IH]; intros H; simpl; [reflexivity |].
  assert (Hn : enter purgeOptions n s = s).
  { rewrite enter_candidate_text. destruct (candidate_text n) as [text |] eqn:E;
      [| reflexivity].
    apply add_each_present. intros tok Htok. apply H. exists n, text.
    split; [now left | auto]. }
  rewrite Hn. apply IH. intros tok (m & text & Hm & Ht & Htok).
  apply H. exists m, text. split; [now right | auto].
Qed.

Lemma scan_modules_present (this : PluginContext) (ids : list string) (s : StringSet) :
  (forall id text, In id ids -> scanned_text this id = Some text ->
     exists ast, parse this text = Ok ast /\
                 forall tok, token_of_tree purgeOptions ast tok -> In tok s) ->
  for_of (scan_module purgeOptions this) ids s = Ok s.
Proof.
  induction ids as [| id ids IH]; intros H; simpl; [reflexivity |].
  rewrite scan_module_scanned_text.
  assert (Hrest : for_of (scan_module purgeOptions this) ids s = Ok s).
  { apply IH. intros id' text Hin. apply H. now right. }
  destruct (scanned_text this id) as [text |] eqn:E; simpl; [| exact Hrest].
  destruct (H id text (or_introl eq_refl) E) as (ast & -> & Htok). simpl.
  now rewrite (walk_present ast s Htok).
Qed.

Lemma scan_modules_parsed (this : PluginContext) (ids : list string) :
  forall s s',
    for_of (scan_module purgeOptions this) ids s = Ok s' ->
    forall id text, In id ids -> scanned_text this id = Some text ->
                    exists ast, parse this text = Ok ast.
Proof.
  induction ids as [| id0 ids IH]; intros s s' H id text Hin Ht; [contradiction |].
  simpl in H. rewrite scan_module_scanned_text in H.
  destruct (scanned_text this id0) as [text0 |] eqn:E0; simpl in H.
  - destruct (parse this text0) as [ast | e] eqn:Ep; simpl in H; [| discriminate].
    destruct Hin as [-> | Hin]; [| now apply (IH _ _ H id text)].
    rewrite E0 in Ht. injection Ht as <-. now exists ast.
  - destruct Hin as [-> | Hin]; [congruence | now apply (IH _ _ H id text)].
Qed.

(** A second pass with the same host answers finds no new candidate, and
    appends to the standard array every validated candidate once more. *)
Theorem second_pass_same_candidates (this : PluginContext) (p p1 p2 : Plugin)
    (b1 b2 : OutputBundle) (out1 out2 : Output) :
  generateBundle purgeOptions this p b1 = Ok (p1, out1) ->
  generateBundle purgeOptions this p1 b2 = Ok (p2, out2) ->
  selectors p2 = selectors p1 /\
  standard p2 = standard p1 ++ map Str (filter valid_token (selectors p1)).
Proof.
  intros H1 H2. apply generateBundle_Ok in H1. destruct H1 as (Hscan1 & _ & _ & Hids & _).
  apply generateBundle_Ok in H2. destruct H2 as (Hscan2 & Hstd2 & _).
  assert (Hfix : for_of (scan_module purgeOptions this) (moduleIds p1) (selectors p1) =
                 Ok (selectors p1)).
  { rewrite Hids. apply scan_modules_present. intros id text Hin Ht.
    destruct (scan_modules_parsed _ _ _ _ Hscan1 id text Hin Ht) as [ast Hp].
    exists ast. split; [exact Hp |]. intros tok Htok.
    destruct (scan_modules_spec _ _ _ _ _ Hscan1) as [_ Hspec].
    apply Hspec. right. exists id. split; [exact Hin |]. now exists text, ast. }
  rewrite Hfix in Hscan2. injection Hscan2 as Hsel.
  split; [now symmetry |]. now rewrite Hstd2, <- Hsel.
Qed.

(** ** The scanner and the safelist, on the hook itself *)

(** C7.  In a pass that returns, every tracked module that is included and
    has code is parsed and walked in full, and three kinds of node
    contribute text: a string literal its value, an identifier its name, a
    template segment its cooked value or, when that is missing, its raw
    text.  The user's [defaultExtractor], or the default one when none is
    given, is run on each such text and every token it returns is added to
    the candidate set: the candidates after the pass are those before it
    together with the tokens of the texts of the nodes of those modules. *)
Theorem scan_collects_candidate_text (this : PluginContext) (p p' : Plugin)
    (b : OutputBundle) (out : Output) :
  generateBundle purgeOptions this p b = Ok (p', out) ->
  (forall node s,
      enter purgeOptions node s =
      match candidate_text node with
      | Some text =>
          add_each (nullish (chain purgeOptions defaultExtractor) default_extractor text) s
      | None => s
      end)
  /\ (forall id info text,
        In id (moduleIds p) -> getModuleInfo this id = Some info ->
        isIncluded info = Some true -> code info = Some text ->
        exists ast,
          parse this text = Ok ast /\
          forall s,
            scan_module purgeOptions this s id =
            Ok (fold_left
                  (fun acc n =>
                     match candidate_text n with
                     | Some t =>
                         add_each
                           (nullish (chain purgeOptions defaultExtractor)
                              default_extractor t) acc
                     | None => acc
                     end) (nodes_of ast) s))
  /\ (forall tok,
        In tok (selectors p') <->
        In tok (selectors p) \/
        exists id info text ast node t,
          In id (moduleIds p) /\ getModuleInfo this id = Some info /\
          isIncluded info = Some true /\ code info = Some text /\
          parse this text = Ok ast /\ In node (nodes_of ast) /\
          candidate_text node = Some t /\
          In tok (nullish (chain purgeOptions defaultExtractor) default_extractor t)).
Proof.
  intros H. apply generateBundle_Ok in H. destruct H as (Hscan & _).
  split; [exact (enter_candidate_text purgeOptions) | split].
  - intros id info text Hin Hinfo Hinc Hcode.
    assert (Ht : scanned_text this id = Some text)
      by (unfold scanned_text; now rewrite Hinfo, Hinc).
    destruct (scan_modules_parsed _ _ _ _ Hscan id text Hin Ht) as [ast Hp].
    exists ast. split; [exact Hp |]. intros s.
    rewrite scan_module_scanned_text, Ht, Hp. simpl. rewrite walk_nodes_of.
    f_equal. apply fold_left_pointwise. apply Forall_forall.
    intros n _ acc. apply enter_candidate_text.
  - intros tok. destruct (scan_modules_spec _ _ _ _ _ Hscan) as [_ Hspec].
    rewrite Hspec. split.
    + intros [Hs | (id & Hid & text & ast & Ht & Hp & node & t & Hn & Hc & Htok)];
        [now left |].
      right. unfold scanned_text in Ht.
      destruct (getModuleInfo this id) as [info |] eqn:Einfo; [| discriminate].
      destruct (isIncluded info) as [[|] |] eqn:Einc; try discriminate.
      exists id, info, text, ast, node, t. repeat split; assumption.
    + intros [Hs | (id & info & text & ast & node & t &
                    Hid & Hinfo & Hinc & Hcode & Hp & Hn & Hc & Htok)]; [now left |].
      right. exists id. split; [exact Hid |]. exists text, ast.
      split; [unfold scanned_text; now rewrite Hinfo, Hinc |].
      split; [exact Hp |]. now exists node, t.
Qed.

Lemma run_outs (hooks : list HookCall) :
  forall p0 outs0 p outs,
    run purgeOptions hooks p0 outs0 = Ok (p, outs) ->
    List.length outs0 <= List.length outs /\
    (List.length outs = List.length outs0 -> standard p = standard p0).
Proof.
  induction hooks as [| [id | config | this b] hooks IH];
    intros p0 outs0 p outs H; simpl in H.
  - injection H as <- <-. auto.
  - destruct (IH _ _ _ _ H) as [Hle Heq]. split; [exact Hle |].
    intros E. rewrite (Heq E). unfold load. now destruct (EXT_CSS_test id).
  - destruct (IH _ _ _ _ H) as [Hle Heq]. split; [exact Hle |].
    intros E. now rewrite (Heq E).
  - destruct (generateBundle purgeOptions this p0 b) as [[p1 out1] | e];
      simpl in H; [| discriminate].
    destruct (IH _ _ _ _ H) as [Hle _]. rewrite length_app in Hle. simpl in Hle.
    split; lia.
Qed.

(** C2.  Take any state a session on a fresh instance has reached, whatever
    the user configuration, and a pass from it that returns.  Before the
    pass the standard array is the six baseline entries, then the user's
    [safelist.standard] entries, then the selectors earlier passes
    validated (none if there was no earlier pass).  The pass appends, after
    all of these, exactly the candidates that parse and compile, and every
    engine call of the pass receives the array so extended.  With no
    options, no safelist, no [standard] key or [standard: []] the user's
    part is empty. *)
Theorem merged_standard_order (hooks : list HookCall) (p : Plugin) (outs : list Output)
    (this : PluginContext) (b : OutputBundle) (p' : Plugin) (out : Output) :
  run purgeOptions hooks (purgeCss purgeOptions) [] = Ok (p, outs) ->
  generateBundle purgeOptions this p b = Ok (p', out) ->
  exists earlier,
    standard p =
      [ Str "*"; Str "html"; Str "body"; Re "aria-current"; Re "svelte-";
        Re "^\:[-a-z]+$" ] ++
      nullish (chain (chain purgeOptions safelist) sl_standard) [] ++
      map Str earlier
    /\ Forall (fun t => In t (selectors p) /\
                        returns (css_what_parse t) = true /\
                        returns (RegExp_new t) = true) earlier
    /\ (outs = [] -> earlier = [])
    /\ standard p' =
         [ Str "*"; Str "html"; Str "body"; Re "aria-current"; Re "svelte-";
           Re "^\:[-a-z]+$" ] ++
         nullish (chain (chain purgeOptions safelist) sl_standard) [] ++
         map Str earlier ++
         map Str (filter (fun t => returns (css_what_parse t) && returns (RegExp_new t))
                    (selectors p'))
    /\ (forall o, In o (calls out) -> chain (safelist o) sl_standard = Some (standard p'))
    /\ (chain (chain purgeOptions safelist) sl_standard = None \/
        chain (chain purgeOptions safelist) sl_standard = Some [] ->
        nullish (chain (chain purgeOptions safelist) sl_standard) [] = []).
Proof.
  intros Hrun Hpass.
  destruct (run_outs _ _ _ _ _ Hrun) as [_ Hfresh].
  apply run_merged in Hrun; [| apply purgeCss_merged | intros ? ? []].
  destruct Hrun as [(d & Hstd & Hd) _].
  pose proof (fun o => generateBundle_calls _ _ _ _ _ _ o Hpass) as Hcalls.
  apply generateBundle_Ok in Hpass. destruct Hpass as (_ & Hstd' & _).
  exists d. split; [exact Hstd | split; [| split; [| split; [| split]]]].
  - eapply Forall_impl; [| exact Hd]. intros t [Hin Hv].
    apply valid_token_iff in Hv. tauto.
  - intros ->. specialize (Hfresh eq_refl). rewrite Hstd in Hfresh.
    assert (E0 : standard (purgeCss purgeOptions) = merged_standard purgeOptions []).
    { unfold merged_standard. simpl. now rewrite app_nil_r. }
    rewrite E0 in Hfresh. unfold merged_standard in Hfresh.
    apply app_inv_head in Hfresh. apply app_inv_head in Hfresh.
    now destruct d.
  - rewrite Hstd', Hstd. unfold merged_standard, user_standard.
    now rewrite <- !app_assoc.
  - intros o Ho. now rewrite (Hcalls o Ho).
  - intros [-> | ->]; reflexivity.
Qed.

End Further.

(** * The further properties on the small builds *)

Lemma session_tracks_loaded_modules_witness :
  (In "src/app.js" (moduleIds Demo.after_first) <->
   In (Load "src/app.js") Demo.hooks /\ EXT_CSS_test "src/app.js" = false)
  /\ NoDup (moduleIds Demo.after_first) /\ NoDup (selectors Demo.after_first).
Proof.
  exact (session_tracks_loaded_modules (ext := Demo.ext) Demo.userOptions Demo.hooks
           Demo.after_first [Demo.out_first] "src/app.js" demo_session).
Defined.

Lemma pass_appends_distinct_witness :
  NoDup (selectors Demo.ready) /\
  exists added,
    standard Demo.after_first = standard Demo.ready ++ map Str added /\ NoDup added /\
    (forall t, In t added <->
               In t (selectors Demo.after_first) /\ valid_token (ext := Demo.ext) t = true).
Proof.
  assert (Hs : NoDup (selectors Demo.ready)) by constructor.
  split; [exact Hs |].
  exact (pass_appends_distinct (ext := Demo.ext) Demo.userOptions Demo.this Demo.ready
           Demo.after_first Demo.bundle Demo.out_first demo_first_pass Hs).
Defined.

Lemma demo_modules_parse (id text : string) :
  In id (moduleIds Demo.ready) -> scanned_text Demo.this id = Some text ->
  exists ast, parse Demo.this text = Ok ast.
Proof.
  intros Hin. simpl in Hin.
  destruct Hin as [<- | [<- | [<- | [<- | []]]]]; cbv; intros H;
    try discriminate.
  injection H as <-. eexists. reflexivity.
Qed.

Lemma demo_stylesheets_text (k : string) (a : Asset) :
  In (k, IsAsset a) Demo.bundle -> EXT_CSS_test k = true ->
  exists text, source a = Text text.
Proof.
  intros Hin. simpl in Hin.
  destruct Hin as [H | [H | [H | [H | []]]]]; inversion H; subst;
    intros Hext; try discriminate; eexists; reflexivity.
Qed.

Lemma demo_engine_returns (o : Options) :
  exists results, purge (Externals := Demo.ext) o = Ok results.
Proof.
  simpl. destruct (css o) as [[| c l] |]; try (eexists; reflexivity).
  destruct (String.eqb (name c) "empty.css"); eexists; reflexivity.
Qed.

Lemma generateBundle_returns_witness :
  viteConfig Demo.ready = Some {| root := "/proj" |} /\
  exists p' out,
    generateBundle (ext := Demo.ext) Demo.userOptions Demo.this Demo.ready Demo.bundle =
    Ok (p', out).
Proof.
  split; [reflexivity |].
  exact (generateBundle_returns (ext := Demo.ext) Demo.userOptions Demo.this Demo.ready
           Demo.bundle {| root := "/proj" |} eq_refl
           demo_modules_parse demo_stylesheets_text demo_engine_returns).
Defined.

Lemma edge_plain_bundle (kv : string * ChunkOrAsset) :
  In kv Edge.plain_bundle -> is_css_asset kv = false.
Proof. intros [<- | [<- | []]]; reflexivity. Qed.

Lemma pass_without_stylesheets_witness :
  viteConfig Edge.unconfigured = None /\
  generateBundle (ext := Demo.ext) Demo.userOptions Demo.this Edge.unconfigured
    Edge.plain_bundle =
  (sels <- for_of (scan_module (ext := Demo.ext) Demo.userOptions Demo.this)
             (moduleIds Edge.unconfigured) (selectors Edge.unconfigured) ;;
   Ok ({| viteConfig := viteConfig Edge.unconfigured;
          selectors := sels;
          standard := standard Edge.unconfigured ++
                      map Str (filter (valid_token (ext := Demo.ext)) sels);
          moduleIds := moduleIds Edge.unconfigured |},
       {| bundle := Edge.plain_bundle; emitted := []; calls := [] |})).
Proof.
  split; [reflexivity |].
  exact (pass_without_stylesheets (ext := Demo.ext) Demo.userOptions Demo.this
           Edge.unconfigured Edge.plain_bundle edge_plain_bundle).
Defined.

Lemma unconfigured_pass_throws_witness :
  viteConfig Edge.unconfigured = None /\
  In ("assets/style.css", IsAsset Demo.style) Demo.bundle /\
  exists message,
    generateBundle (ext := Demo.ext) Demo.userOptions Demo.this Edge.unconfigured
      Demo.bundle = Throw (Error "TypeError" message).
Proof.
  assert (Hin : In ("assets/style.css", IsAsset Demo.style) Demo.bundle)
    by (right; left; reflexivity).
  split; [reflexivity |]. split; [exact Hin |].
  exact (unconfigured_pass_throws (ext := Demo.ext) Demo.userOptions Demo.this
           Edge.unconfigured Demo.bundle (selectors Demo.after_first)
           "assets/style.css" Demo.style eq_refl eq_refl Hin eq_refl).
Defined.

Lemma binary_stylesheet_aborts_witness :
  NoDup (keys Edge.binary_bundle) /\
  In ("font.css", IsAsset Edge.binary_css) Edge.binary_bundle /\
  exists e,
    generateBundle (ext := Demo.ext) Demo.userOptions Demo.this Demo.ready
      Edge.binary_bundle = Throw e.
Proof.
  assert (Hnd : NoDup (keys Edge.binary_bundle)).
  { unfold keys. simpl. repeat constructor; simpl; intuition discriminate. }
  assert (Hin : In ("font.css", IsAsset Edge.binary_css) Edge.binary_bundle)
    by (right; left; reflexivity).
  split; [exact Hnd |]. split; [exact Hin |].
  exact (binary_stylesheet_aborts (ext := Demo.ext) Demo.userOptions Demo.this
           Demo.ready Edge.binary_bundle "font.css" Edge.binary_css ["a"%char]
           Hnd Hin eq_refl eq_refl).
Defined.

Lemma one_call_per_stylesheet_witness :
  NoDup (keys Demo.bundle) /\
  flat_map css_names (calls Demo.out_first) = ["assets/style.css"; "empty.css"] /\
  List.length (calls Demo.out_first) = 2.
Proof.
  split; [exact (proj1 demo_host_bundle) |].
  exact (one_call_per_stylesheet (ext := Demo.ext) Demo.userOptions Demo.this
           Demo.ready Demo.after_first Demo.bundle Demo.out_first
           (proj1 demo_host_bundle) demo_first_pass).
Defined.

Lemma files_conserved_witness :
  host_bundle Demo.bundle /\
  keys (bundle Demo.out_first) = ["index.js"; "logo.svg"; "empty.css"] /\
  map fileName (emitted Demo.out_first) = ["assets/style.css"] /\
  List.length (bundle Demo.out_first) + List.length (emitted Demo.out_first) = 4.
Proof.
  split; [exact demo_host_bundle |].
  destruct (files_conserved (ext := Demo.ext) Demo.userOptions Demo.this Demo.ready
              Demo.after_first Demo.bundle Demo.out_first
              demo_host_bundle demo_first_pass) as (Hb & He & Hl).
  split; [now rewrite Hb | split; [now rewrite He | exact Hl]].
Defined.

Lemma options_passed_through_witness :
  In Demo.first_call (calls Demo.out_first) /\
  fontFace Demo.first_call = Some true /\ blocklist Demo.first_call = None.
Proof.
  assert (Hin : In Demo.first_call (calls Demo.out_first)) by (left; reflexivity).
  split; [exact Hin |].
  destruct (options_passed_through (ext := Demo.ext) Demo.userOptions Demo.this
              Demo.ready Demo.after_first Demo.bundle Demo.out_first Demo.first_call
              demo_first_pass Hin) as (_ & Hf & _ & _ & _ & Hb & _).
  split; [exact Hf | exact Hb].
Defined.

Lemma second_pass_same_candidates_witness :
  selectors Demo.after_second = selectors Demo.after_first /\
  standard Demo.after_second =
    standard Demo.after_first ++
    map Str (filter (valid_token (ext := Demo.ext)) (selectors Demo.after_first)).
Proof.
  exact (second_pass_same_candidates (ext := Demo.ext) Demo.userOptions Demo.this
           Demo.ready Demo.after_first Demo.after_second Demo.bundle Demo.bundle
           Demo.out_first Demo.out_second demo_first_pass demo_second_pass).
Defined.

(** * The scanner and the safelist on the small builds *)

Lemma demo_setup :
  run (ext := Demo.ext) Demo.userOptions Demo.session (purgeCss Demo.userOptions) [] =
  Ok (Demo.ready, []).
Proof. reflexivity. Qed.

Lemma merged_standard_order_witness :
  run (ext := Demo.ext) Demo.userOptions Demo.session (purgeCss Demo.userOptions) [] =
    Ok (Demo.ready, []) /\
  generateBundle (ext := Demo.ext) Demo.userOptions Demo.this Demo.ready Demo.bundle =
    Ok (Demo.after_first, Demo.out_first) /\
  standard Demo.after_first =
    [ Str "*"; Str "html"; Str "body"; Re "aria-current"; Re "svelte-";
      Re "^\:[-a-z]+$" ] ++
    [ Str "((bad"; Re "^keep-" ] ++
    map Str
      (filter (fun t => returns (css_what_parse (Externals := Demo.ext) t) &&
                        returns (RegExp_new (Externals := Demo.ext) t))
         (selectors Demo.after_first)) /\
  (forall o, In o (calls Demo.out_first) ->
             chain (safelist o) sl_standard = Some (standard Demo.after_first)).
Proof.
  split; [reflexivity |]. split; [reflexivity |].
  destruct (merged_standard_order (ext := Demo.ext) Demo.userOptions Demo.session
              Demo.ready [] Demo.this Demo.bundle Demo.after_first Demo.out_first
              demo_setup demo_first_pass)
    as (earlier & _ & _ & Hnone & Hstd & Hcalls & _).
  rewrite (Hnone eq_refl) in Hstd. split; [exact Hstd | exact Hcalls].
Defined.

Lemma scan_collects_candidate_text_witness :
  generateBundle (ext := Demo.ext) Demo.userOptions Demo.this Demo.ready Demo.bundle =
    Ok (Demo.after_first, Demo.out_first) /\
  (In "btn-primary" (selectors Demo.after_first) <->
   In "btn-primary" (selectors Demo.ready) \/
   exists id info text ast node t,
     In id (moduleIds Demo.ready) /\ getModuleInfo Demo.this id = Some info /\
     isIncluded info = Some true /\ code info = Some text /\
     parse Demo.this text = Ok ast /\ In node (nodes_of ast) /\
     candidate_text node = Some t /\
     In "btn-primary"
       (nullish (chain Demo.userOptions defaultExtractor)
          (default_extractor (Externals := Demo.ext)) t)).
Proof.
  split; [reflexivity |].
  exact (proj2 (proj2 (scan_collects_candidate_text (ext := Demo.ext) Demo.userOptions
                         Demo.this Demo.ready Demo.after_first Demo.bundle
                         Demo.out_first demo_first_pass)) "btn-primary").
Defined.

Lemma unparsable_module_aborts_witness :
  moduleIds Edge.three_modules = ["src/app.js"; "src/b.js"; "src/c.js"] /\
  parse Edge.half_broken "src/c.js" = Throw (Error "SyntaxError" "Unexpected token in c") /\
  generateBundle (ext := Demo.ext) Demo.userOptions Edge.half_broken Edge.three_modules
    Demo.bundle = Throw (Error "SyntaxError" "Unexpected token in b") /\
  exists e' before id' after info' text',
    generateBundle (ext := Demo.ext) Demo.userOptions Edge.half_broken Edge.three_modules
      Demo.bundle = Throw e' /\
    moduleIds Edge.three_modules = before ++ id' :: after /\
    getModuleInfo Edge.half_broken id' = Some info' /\ isIncluded info' = Some true /\
    code info' = Some text' /\ parse Edge.half_broken text' = Throw e' /\
    forall id0 info0 text0,
      In id0 before -> getModuleInfo Edge.half_broken id0 = Some info0 ->
      isIncluded info0 = Some true -> code info0 = Some text0 ->
      exists ast, parse Edge.half_broken text0 = Ok ast.
Proof.
  assert (Hin : In "src/c.js" (moduleIds Edge.three_modules))
    by (right; right; left; reflexivity).
  split; [reflexivity |]. split; [reflexivity |]. split; [reflexivity |].
  exact (unparsable_module_aborts (ext := Demo.ext) Demo.userOptions Edge.half_broken
           Edge.three_modules Demo.bundle "src/c.js"
           {| isIncluded := Some true; code := Some "src/c.js" |} "src/c.js"
           (Error "SyntaxError" "Unexpected token in c")
           Hin eq_refl eq_refl eq_refl eq_refl).
Defined.


Lemma edge_later_pass :
  generateBundle (ext := Demo.ext) Demo.userOptions Demo.this Edge.after_earlier
    Demo.bundle = Ok (Edge.after_later, Edge.out_later).
Proof. reflexivity. Qed.

(** C5, as stated, fails on a second pass: [src/dead.js] was included in an
    earlier pass and is dropped in this one, so this pass does not scan it,
    yet its token [unused] is a candidate after the pass, is in the
    standard array and in the safelist of every engine call, and no module
    this pass scans yields it. *)
Lemma skipped_module_token_stays :
  generateBundle (ext := Demo.ext) Demo.userOptions Edge.earlier Demo.ready Demo.bundle =
    Ok (Edge.after_earlier, Edge.out_earlier) /\
  generateBundle (ext := Demo.ext) Demo.userOptions Demo.this Edge.after_earlier
    Demo.bundle = Ok (Edge.after_later, Edge.out_later) /\
  In "src/dead.js" (moduleIds Edge.after_earlier) /\
  getModuleInfo Demo.this "src/dead.js" =
    Some {| isIncluded := Some false; code := Some "dead" |} /\
  skipped Demo.this "src/dead.js" /\
  parse Demo.this "dead" = Ok (Literal (VString "unused")) /\
  In "unused" (selectors Edge.after_later) /\
  In (Str "unused") (standard Edge.after_later) /\
  (forall o, In o (calls Edge.out_later) ->
     exists sl std,
       safelist o = Some sl /\ sl_standard sl = Some std /\ In (Str "unused") std) /\
  (forall id, In id (moduleIds Edge.after_earlier) ->
     ~ token_of_module (ext := Demo.ext) Demo.userOptions Demo.this id "unused").
Proof.
  split; [reflexivity |]. split; [reflexivity |].
  split; [vm_compute; tauto |]. split; [reflexivity |].
  split; [left; discriminate |]. split; [reflexivity |].
  split; [vm_compute; tauto |]. split; [vm_compute; tauto |]. split.
  - intros o Ho.
    pose proof (generateBundle_calls (ext := Demo.ext) Demo.userOptions Demo.this
                  Edge.after_earlier Edge.after_later Demo.bundle Edge.out_later o
                  edge_later_pass Ho) as Hsl.
    eexists. eexists. split; [exact Hsl |]. split; [reflexivity |].
    vm_compute. tauto.
  - intros id Hin (text & ast & Ht & Hp & node & t & Hn & Hc & Htok).
    vm_compute in Hin.
    destruct Hin as [<- | [<- | [<- | [<- | []]]]]; vm_compute in Ht; try discriminate.
    injection Ht as <-. vm_compute in Hp. injection Hp as <-.
    vm_compute in Hn.
    repeat (destruct Hn as [<- | Hn];
            [vm_compute in Hc; try discriminate; injection Hc as <-;
             vm_compute in Htok;
             repeat (destruct Htok as [Htok | Htok]; try discriminate);
             try contradiction |]).
    contradiction.
Qed.
